(** * scout-go: correlation codec, kind-aware sampler and lifecycle controller

    A shallow embedding of the Go package [scout] (tracer helpers, the
    per-span-kind sampler, the lifecycle state machine and the recording
    entry points) together with the properties stated about them.

    Conventions of the embedding:
    - Go [string]s are [string]s, bytes are integers in [0, 256);
    - a Go [error] is [option error], [None] being [nil];
    - a Go [map] is a [gmap]; indexing a missing key yields the zero value;
    - package-level variables ([state], [otlp], [conf], the channels) are
      the fields of one record that every operation threads explicitly;
    - calls into the OpenTelemetry SDK and the logger are recorded, in
      order, in an effect log;
    - [stateMutex] is not modelled: each operation that holds it is one
      atomic step of the state machine. *)

From Stdlib Require Import ZArith QArith Qround List String Ascii Bool Lia.
From Stdlib Require Import Floats.
From stdpp Require Import gmap strings.
Import ListNotations.

Local Open Scope string_scope.
Local Open Scope list_scope.
Local Open Scope Z_scope.

(** ** Go runtime helpers *)

Module Go.

(** The [error] values this package builds are all made by [errors.New] or
    come back from a collaborator; only the message matters here. *)
Inductive error : Type :=
| errors_New (msg : string).

(** [strings.Split(s, sep)] for a one-byte separator: the substrings of [s]
    between the occurrences of [sep], in order.  A string without [sep]
    (the empty string included) gives a single segment. *)
Fixpoint Split (s : string) (sep : ascii) : list string :=
  match s with
  | EmptyString => [EmptyString]
  | String c s' =>
      if Ascii.eqb c sep then EmptyString :: Split s' sep
      else match Split s' sep with
           | seg :: segs => String c seg :: segs
           | [] => [String c EmptyString]
           end
  end.

(** [strings.Join(elems, sep)] for a one-byte separator. *)
Fixpoint Join (elems : list string) (sep : ascii) : string :=
  match elems with
  | [] => EmptyString
  | [e] => e
  | e :: rest => (e ++ String sep (Join rest sep))%string
  end.

(** [strings.IndexByte(s, c) < 0]. *)
Fixpoint sep_free (sep : ascii) (s : string) : bool :=
  match s with
  | EmptyString => true
  | String c s' => negb (Ascii.eqb c sep) && sep_free sep s'
  end.

(** A call either returns or panics (a failed type assertion). *)
Inductive outcome (A : Type) : Type :=
| Ok (a : A)
| Panic.
Arguments Ok {A} a.
Arguments Panic {A}.

Definition bind {A B} (m : outcome A) (k : A -> outcome B) : outcome B :=
  match m with
  | Ok a => k a
  | Panic => Panic
  end.

End Go.

(** ** Correlation codec: parsing the [X-Scout-Request] header *)

Module Correlation.
Import Go.

Definition RequestTracerHeader : string := "X-Scout-Request".

Definition errNoTracerIDs : error :=
  errors_New "request does not contain tracer IDs".

(** [ExtractIdsFromRequest]: both results start as the empty string and are
    assigned only on the success path. *)
Definition ExtractIdsFromRequest (requestDetails : string)
  : string * string * option error :=
  let sessionSecureId := "" in
  let requestId := "" in
  let ids := Split requestDetails "/" in
  if (2 <=? length ids)%nat then
    let sessionSecureId := nth 0 ids "" in
    let requestId := nth 1 ids "" in
    (sessionSecureId, requestId, None)
  else
    (sessionSecureId, requestId, Some errNoTracerIDs).

End Correlation.

(** ** Byte codecs used to derive a trace identity *)

Module Codec.
Import Go.

Definition byte_of (c : ascii) : Z := Z.of_N (N_of_ascii c).

(** *** [encoding/base64], [StdEncoding]

    The standard alphabet, padding character [=], not strict.  The decoder
    reads quanta of four sextets, skipping carriage returns and line feeds,
    and appends the bytes of every quantum it completes; on corrupt input it
    stops and reports the bytes written so far together with the error
    ([DecodeString] returns [dbuf[:n], err]).  The byte offset carried by
    Go's [CorruptInputError] is not tracked. *)

Definition CorruptInputError : error := errors_New "illegal base64 data".

Definition padChar : ascii := "="%char.

Definition decodeMap (c : ascii) : option Z :=
  let n := byte_of c in
  if (65 <=? n) && (n <=? 90) then Some (n - 65)
  else if (97 <=? n) && (n <=? 122) then Some (n - 71)
  else if (48 <=? n) && (n <=? 57) then Some (n + 4)
  else if n =? 43 then Some 62
  else if n =? 47 then Some 63
  else None.

Definition is_newline (c : ascii) : bool :=
  (byte_of c =? 10) || (byte_of c =? 13).

Fixpoint skip_newlines (src : list ascii) : list ascii :=
  match src with
  | [] => []
  | c :: src' => if is_newline c then skip_newlines src' else src
  end.

(** The [dlen - 1] bytes held by a quantum of [dlen] sextets. *)
Definition quantum (dbuf : list Z) (dlen : nat) : list Z :=
  let d i := nth i dbuf 0 in
  let val :=
    Z.lor (Z.lor (Z.lor (Z.shiftl (d 0%nat) 18) (Z.shiftl (d 1%nat) 12))
                 (Z.shiftl (d 2%nat) 6))
          (d 3%nat) in
  firstn (dlen - 1)
    [Z.shiftr val 16 mod 256; Z.shiftr val 8 mod 256; val mod 256].

(** A padding character was read with [dbuf] holding the sextets of the
    current quantum; [src] is what follows it. *)
Definition decode_padding (src : list ascii) (dbuf dst : list Z)
  : list Z * option error :=
  let finish rest :=
    (dst ++ quantum dbuf (length dbuf),
     match skip_newlines rest with
     | [] => None
     | _ :: _ => Some CorruptInputError
     end) in
  match length dbuf with
  | 0%nat | 1%nat => (dst, Some CorruptInputError)
  | 2%nat =>
      match skip_newlines src with
      | [] => (dst, Some CorruptInputError)
      | c :: rest =>
          if negb (Ascii.eqb c padChar) then (dst, Some CorruptInputError)
          else finish rest
      end
  | _ => finish src
  end.

Fixpoint decode (src : list ascii) (dbuf dst : list Z)
  : list Z * option error :=
  match src with
  | [] =>
      match dbuf with
      | [] => (dst, None)
      | _ :: _ => (dst, Some CorruptInputError)
      end
  | c :: src' =>
      match decodeMap c with
      | Some out =>
          let dbuf' := dbuf ++ [out] in
          if (length dbuf' =? 4)%nat
          then decode src' [] (dst ++ quantum dbuf' 4)
          else decode src' dbuf' dst
      | None =>
          if is_newline c then decode src' dbuf dst
          else if negb (Ascii.eqb c padChar)
               then (dst, Some CorruptInputError)
               else decode_padding src' dbuf dst
      end
  end.

Definition base64_DecodeString (s : string) : list Z * option error :=
  decode (list_ascii_of_string s) [] [].

(** *** [fmt.Sprintf("%032x", data)] for a byte slice: two lower-case hex
    digits per byte, left-padded with the digit zero to 32 characters. *)

Definition hextable : string := "0123456789abcdef".

Definition hexdigit (n : Z) : ascii :=
  match String.get (Z.to_nat n) hextable with
  | Some c => c
  | None => "0"%char
  end.

Fixpoint hex_encode (data : list Z) : string :=
  match data with
  | [] => EmptyString
  | b :: rest =>
      String (hexdigit (Z.shiftr b 4))
        (String (hexdigit (Z.land b 15)) (hex_encode rest))
  end.

Fixpoint zero_pad (n : nat) (s : string) : string :=
  match n with
  | O => s
  | S n' => String "0"%char (zero_pad n' s)
  end.

Definition Sprintf_032x (data : list Z) : string :=
  let h := hex_encode data in
  zero_pad (32 - String.length h) h.

(** *** [encoding/hex] *)

Definition fromHexChar (c : ascii) : option Z :=
  let n := byte_of c in
  if (48 <=? n) && (n <=? 57) then Some (n - 48)
  else if (97 <=? n) && (n <=? 102) then Some (n - 97 + 10)
  else if (65 <=? n) && (n <=? 70) then Some (n - 65 + 10)
  else None.

Fixpoint hex_DecodeString (h : string) : option (list Z) :=
  match h with
  | EmptyString => Some []
  | String _ EmptyString => None
  | String a (String b rest) =>
      match fromHexChar a, fromHexChar b, hex_DecodeString rest with
      | Some x, Some y, Some r => Some (Z.lor (Z.shiftl x 4) y :: r)
      | _, _, _ => None
      end
  end.

End Codec.

(** ** [go.opentelemetry.io/otel/trace]: trace identities *)

Module Trace.
Import Go Codec.

(** [type TraceID [16]byte], most significant byte first. *)
Definition TraceID : Type := list Z.

Definition nilTraceID : TraceID := repeat 0 16.

Definition IsValid (t : TraceID) : bool := bool_decide (t <> nilTraceID).

Definition errInvalidHexID : error :=
  errors_New "trace-id and span-id can only contain [0-9a-f] characters, all lowercase".
Definition errInvalidTraceIDLength : error :=
  errors_New "hex encoded trace-id must have length equals to 32".
Definition errNilTraceID : error :=
  errors_New "trace-id can't be all zero".

Definition lower_hex (c : ascii) : bool :=
  let n := byte_of c in
  ((97 <=? n) && (n <=? 102)) || ((48 <=? n) && (n <=? 57)).

Fixpoint all_lower_hex (h : string) : bool :=
  match h with
  | EmptyString => true
  | String c h' => lower_hex c && all_lower_hex h'
  end.

(** [copy(b, decoded)]. *)
Definition copy (b decoded : list Z) : list Z :=
  firstn (length b) decoded ++ skipn (length decoded) b.

Definition decodeHex (h : string) (b : list Z) : list Z * option error :=
  if negb (all_lower_hex h) then (b, Some errInvalidHexID)
  else match hex_DecodeString h with
       | None => (b, Some errInvalidHexID)
       | Some decoded => (copy b decoded, None)
       end.

Definition TraceIDFromHex (h : string) : TraceID * option error :=
  let t := nilTraceID in
  if negb (String.length h =? 32)%nat then (t, Some errInvalidTraceIDLength)
  else
    match decodeHex h t with
    | (t, Some err) => (t, Some err)
    | (t, None) =>
        if negb (IsValid t) then (t, Some errNilTraceID) else (t, None)
    end.

(** The 128-bit number a trace identity denotes. *)
Definition TraceID_value (t : TraceID) : Z :=
  fold_left (fun acc b => acc * 256 + b) t 0.

End Trace.

(** ** Configuration *)

Module Config.

(** [trace.SpanKind] is an [int]. *)
Abbreviation SpanKind := Z (only parsing).
Definition SpanKindUnspecified : SpanKind := 0.
Definition SpanKindInternal : SpanKind := 1.
Definition SpanKindServer : SpanKind := 2.
Definition SpanKindClient : SpanKind := 3.
Definition SpanKindProducer : SpanKind := 4.
Definition SpanKindConsumer : SpanKind := 5.

(** A finite [float64] is modelled by the rational it denotes (every finite
    [float64] is a dyadic rational); NaN and the infinities are left out. *)
Record config : Type := {
  otelEndpoint : string;
  projectID : string;
  resourceAttributes : list (string * string);
  metricSamplingRate : Q;
  samplingRateMap : gmap Z Q
}.

Definition OTLPDefaultEndpoint : string := "https://otel.getscout.us:4318".

(** [conf] after the package's [init]: [&config{}] with the default
    endpoint set by [SetOtelEndpoint]. *)
Definition conf_init : config :=
  {| otelEndpoint := OTLPDefaultEndpoint;
     projectID := "";
     resourceAttributes := [];
     metricSamplingRate := 0%Q;
     samplingRateMap := ∅ |}.

(** Functional options. *)
Definition Option : Type := config -> config.

Definition WithProjectID (id : string) : Option := fun c =>
  {| otelEndpoint := otelEndpoint c; projectID := id;
     resourceAttributes := resourceAttributes c;
     metricSamplingRate := metricSamplingRate c;
     samplingRateMap := samplingRateMap c |}.

Definition WithSamplingRateMap (rates : gmap Z Q) : Option := fun c =>
  {| otelEndpoint := otelEndpoint c; projectID := projectID c;
     resourceAttributes := resourceAttributes c;
     metricSamplingRate := metricSamplingRate c;
     samplingRateMap := rates |}.

Definition WithSamplingRate (samplingRate : Q) : Option :=
  WithSamplingRateMap {[ SpanKindUnspecified := samplingRate ]}.

Definition apply_opts (opts : list Option) (c : config) : config :=
  fold_left (fun c opt => opt c) opts c.

End Config.

(** ** The per-span-kind sampler *)

Module Sampler.
Import Go Trace Config.

(** [uint64(f)] for a [float64]: the fraction is discarded (truncation
    towards zero).  When the truncated value does not fit in 64 bits Go
    leaves the result to the implementation; the model gives [None] there. *)
Definition Qtruncate (f : Q) : Z := Z.quot (Qnum f) (Z.pos (Qden f)).

Definition uint64_of_float64 (f : Q) : option Z :=
  let t := Qtruncate f in
  if (0 <=? t) && (t <? 2 ^ 64) then Some t else None.

(** The constant [1 << 63] converted to [float64]; multiplying a finite
    [float64] by a power of two is exact. *)
Definition two63 : Q := inject_Z (2 ^ 63).

Definition upper_bound (value : Q) : option Z :=
  uint64_of_float64 (value * two63)%Q.

(** The [description] field, a debug string, is left out. *)
Record sampler : Type := {
  traceIDUpperBounds : gmap Z Z
}.

(** [getSampler]: [lo.MapEntries] keeps every key and converts its rate.
    The result is [None] when some conversion is implementation-dependent. *)
Definition getSampler (conf : config) : option sampler :=
  let m := samplingRateMap conf in
  if bool_decide (map_Forall (fun _ value => is_Some (upper_bound value)) m)
  then Some {| traceIDUpperBounds :=
                 (fun value => default 0 (upper_bound value)) <$> m |}
  else None.

Inductive SamplingDecision : Type :=
| Drop
| RecordOnly
| RecordAndSample.

Record SamplingParameters : Type := {
  sp_ParentTraceState : string;
  sp_TraceID : TraceID;
  sp_Name : string;
  sp_Kind : SpanKind
}.

Record SamplingResult : Type := {
  Decision : SamplingDecision;
  Tracestate : string
}.

(** [binary.BigEndian.Uint64]. *)
Definition BigEndian_Uint64 (b : list Z) : Z :=
  let u i := nth i b 0 in
  Z.lor (Z.lor (Z.lor (Z.lor (Z.lor (Z.lor (Z.lor
    (u 7%nat)
    (Z.shiftl (u 6%nat) 8))
    (Z.shiftl (u 5%nat) 16))
    (Z.shiftl (u 4%nat) 24))
    (Z.shiftl (u 3%nat) 32))
    (Z.shiftl (u 2%nat) 40))
    (Z.shiftl (u 1%nat) 48))
    (Z.shiftl (u 0%nat) 56).

(** The slice expression [l[lo:hi]]. *)
Definition slice {A} (lo hi : nat) (l : list A) : list A :=
  firstn (hi - lo) (skipn lo l).

Definition ShouldSample (s : sampler) (sp : SamplingParameters)
  : SamplingResult :=
  let psc := sp_ParentTraceState sp in
  let x := Z.shiftr (BigEndian_Uint64 (slice 8 16 (sp_TraceID sp))) 1 in
  let bound :=
    match traceIDUpperBounds s !! sp_Kind sp with
    | Some bound => bound
    | None => default 0 (traceIDUpperBounds s !! SpanKindUnspecified)
    end in
  if x <? bound then {| Decision := RecordAndSample; Tracestate := psc |}
  else {| Decision := Drop; Tracestate := psc |}.

(** *** The sampling rule in the words of the specification *)

(** [rate(kind)]: the entry for [kind], else the entry for the unspecified
    kind (a missing entry reads as [0.0]). *)
Definition rate (m : gmap Z Q) (kind : SpanKind) : Q :=
  match m !! kind with
  | Some r => r
  | None => default 0%Q (m !! SpanKindUnspecified)
  end.

(** The low 64 bits of the identity, shifted right by one. *)
Definition low63 (t : TraceID) : Z :=
  Z.shiftr (Z.land (TraceID_value t) (2 ^ 64 - 1)) 1.

(** Rounding to the nearest integer, halves upwards. *)
Definition spec_round (q : Q) : Z := Qfloor (q + (1 # 2))%Q.

Definition spec_decide (t : TraceID) (kind : SpanKind) (m : gmap Z Q)
  : SamplingDecision :=
  if low63 t <? spec_round (rate m kind * two63)%Q
  then RecordAndSample else Drop.

End Sampler.

(** ** Lifecycle controller *)

Module Lifecycle.
Import Go Trace Config.

(** [appState] tracks whether the app is running, stopped or idle. *)
Inductive appState : Type :=
| idle
| started
| stopped.

#[global] Instance appState_eq_dec : EqDecision appState.
Proof. solve_decision. Defined.

(** The handle on the export pipeline; tracer providers are numbered in
    the order [StartOTLP] builds them. *)
Record OTLP : Type := {
  tracerProvider : nat
}.

(** The context handed to [StartWithContext], as far as [ctx.Done()] is
    concerned: [context.Background()] is never done. *)
Inductive DoneCtx : Type :=
| Background
| Cancellable (id : nat).

(** Options of [tracer.Start]. *)
Inductive SpanStartOption : Type :=
| WithSpanKind (kind : SpanKind)
| WithTimestamp (t : Z).

(** Calls into the collaborators, in program order. *)
Inductive Event : Type :=
| LoggerError (msg : string)
| NewTracerProvider (id : nat)
| ForceFlush (id : nat)
| ProviderShutdown (id : nat)
| GoSupervisor (ctx : DoneCtx)
| TracerStart (parent : TraceID) (name : string) (opts : list SpanStartOption)
| SpanEnd (trace : TraceID) (name : string).

(** The package-level variables ([conf], [state], [otlp], the two channels),
    the goroutines launched by [StartWithContext] that have not returned yet,
    the cancellable contexts already cancelled, and the effect log. *)
Record World : Type := {
  conf : config;
  state : appState;
  otlp : option OTLP;
  interruptChan : list bool;
  signalChan : list unit;
  cancelled : list nat;
  supervisors : list DoneCtx;
  providers : nat;
  log : list Event
}.

(** The state after [init]: both channels buffered with capacity one. *)
Definition World_init : World :=
  {| conf := conf_init; state := idle; otlp := None;
     interruptChan := []; signalChan := []; cancelled := [];
     supervisors := []; providers := 0; log := [] |}.

Definition chan_cap : nat := 1.

Definition set_conf (c : config) (w : World) : World :=
  {| conf := c; state := state w; otlp := otlp w;
     interruptChan := interruptChan w; signalChan := signalChan w;
     cancelled := cancelled w; supervisors := supervisors w;
     providers := providers w; log := log w |}.

Definition set_state (st : appState) (w : World) : World :=
  {| conf := conf w; state := st; otlp := otlp w;
     interruptChan := interruptChan w; signalChan := signalChan w;
     cancelled := cancelled w; supervisors := supervisors w;
     providers := providers w; log := log w |}.

Definition set_otlp (o : option OTLP) (w : World) : World :=
  {| conf := conf w; state := state w; otlp := o;
     interruptChan := interruptChan w; signalChan := signalChan w;
     cancelled := cancelled w; supervisors := supervisors w;
     providers := providers w; log := log w |}.

Definition set_interruptChan (c : list bool) (w : World) : World :=
  {| conf := conf w; state := state w; otlp := otlp w;
     interruptChan := c; signalChan := signalChan w;
     cancelled := cancelled w; supervisors := supervisors w;
     providers := providers w; log := log w |}.

Definition set_signalChan (c : list unit) (w : World) : World :=
  {| conf := conf w; state := state w; otlp := otlp w;
     interruptChan := interruptChan w; signalChan := c;
     cancelled := cancelled w; supervisors := supervisors w;
     providers := providers w; log := log w |}.

Definition set_cancelled (c : list nat) (w : World) : World :=
  {| conf := conf w; state := state w; otlp := otlp w;
     interruptChan := interruptChan w; signalChan := signalChan w;
     cancelled := c; supervisors := supervisors w;
     providers := providers w; log := log w |}.

Definition set_supervisors (g : list DoneCtx) (w : World) : World :=
  {| conf := conf w; state := state w; otlp := otlp w;
     interruptChan := interruptChan w; signalChan := signalChan w;
     cancelled := cancelled w; supervisors := g;
     providers := providers w; log := log w |}.

Definition set_providers (n : nat) (w : World) : World :=
  {| conf := conf w; state := state w; otlp := otlp w;
     interruptChan := interruptChan w; signalChan := signalChan w;
     cancelled := cancelled w; supervisors := supervisors w;
     providers := n; log := log w |}.

Definition emit (evs : list Event) (w : World) : World :=
  {| conf := conf w; state := state w; otlp := otlp w;
     interruptChan := interruptChan w; signalChan := signalChan w;
     cancelled := cancelled w; supervisors := supervisors w;
     providers := providers w; log := log w ++ evs |}.

Definition error_msg (e : error) : string :=
  match e with errors_New msg => msg end.

(** [fmt.Errorf(prefix + ": %w", err)]. *)
Definition wrap (prefix : string) (e : error) : error :=
  errors_New (prefix ++ ": " ++ error_msg e)%string.

(** What the exporter and the resource constructors answer. *)
Record StartEnv : Type := {
  exporter_err : option error;
  resource_err : option error
}.

(** What [ForceFlush] and [Shutdown] of the tracer provider answer. *)
Record ShutdownEnv : Type := {
  flush_err : option error;
  release_err : option error
}.

Definition StartOTLP (env : StartEnv) (w : World)
  : option OTLP * option error * World :=
  let w :=
    if String.prefix "http://" (otelEndpoint (conf w)) then w
    else if String.prefix "https://" (otelEndpoint (conf w)) then w
    else emit [LoggerError ("an invalid otlp endpoint was configured "
                            ++ otelEndpoint (conf w))%string] w in
  match exporter_err env with
  | Some err => (None, Some (wrap "creating OTLP trace exporter" err), w)
  | None =>
      match resource_err env with
      | Some err => (None, Some (wrap "creating OTLP resource context" err), w)
      | None =>
          let h := {| tracerProvider := providers w |} in
          (Some h, None,
           set_providers (S (providers w))
             (emit [NewTracerProvider (providers w)] w))
      end
  end.

Definition IsRunning (w : World) : bool := bool_decide (state w = started).

Definition StartWithContext (ctx : DoneCtx) (opts : list Option)
  (env : StartEnv) (w : World) : World :=
  let w := set_conf (apply_opts opts (conf w)) w in
  if bool_decide (state w = started) then w
  else
    let '(o, err, w) := StartOTLP env w in
    let w := set_otlp o w in
    let w :=
      match err with
      | Some err =>
          emit [LoggerError ("failed to start opentelemetry exporter: "
                             ++ error_msg err)%string] w
      | None => w
      end in
    let w := set_state started w in
    emit [GoSupervisor ctx] (set_supervisors (supervisors w ++ [ctx]) w).

(** The [shutdown] method of [OTLP]: flush, then release; either failure is logged. *)
Definition OTLP_shutdown (o : OTLP) (env : ShutdownEnv) (w : World) : World :=
  let w := emit [ForceFlush (tracerProvider o)] w in
  let w :=
    match flush_err env with
    | Some err => emit [LoggerError (error_msg err)] w
    | None => w
    end in
  let w := emit [ProviderShutdown (tracerProvider o)] w in
  match release_err env with
  | Some err => emit [LoggerError (error_msg err)] w
  | None => w
  end.

Definition shutdown (env : ShutdownEnv) (w : World) : World :=
  if negb (IsRunning w) then w
  else
    let w :=
      match otlp w with
      | Some o => OTLP_shutdown o env w
      | None => w
      end in
    set_state stopped w.

(** The atomic steps of an execution.  [Stop] is the send on
    [interruptChan] followed by [shutdown]; a supervisor takes one ready
    branch of its [select] and returns. *)
Inductive Op : Type :=
| CallStart (ctx : DoneCtx) (opts : list Option) (env : StartEnv)
| StopSend
| StopShutdown (env : ShutdownEnv)
| SignalArrives
| CancelCtx (id : nat)
| SupervisorInterrupt (i : nat)
| SupervisorSignal (i : nat) (env : ShutdownEnv)
| SupervisorDone (i : nat) (env : ShutdownEnv).

Definition is_done (w : World) (ctx : DoneCtx) : bool :=
  match ctx with
  | Background => false
  | Cancellable id => bool_decide (id ∈ cancelled w)
  end.

(** [None]: the step is not enabled (a blocked send, a branch that is not
    ready, a goroutine that does not exist). *)
Definition step (op : Op) (w : World) : option World :=
  match op with
  | CallStart ctx opts env => Some (StartWithContext ctx opts env w)
  | StopSend =>
      if (length (interruptChan w) <? chan_cap)%nat
      then Some (set_interruptChan (interruptChan w ++ [true]) w)
      else None
  | StopShutdown env => Some (shutdown env w)
  | SignalArrives =>
      if (length (signalChan w) <? chan_cap)%nat
      then Some (set_signalChan (signalChan w ++ [tt]) w)
      else Some w
  | CancelCtx id => Some (set_cancelled (id :: cancelled w) w)
  | SupervisorInterrupt i =>
      match supervisors w !! i, interruptChan w with
      | Some _, _ :: rest =>
          Some (set_supervisors (delete i (supervisors w))
                  (set_interruptChan rest w))
      | _, _ => None
      end
  | SupervisorSignal i env =>
      match supervisors w !! i, signalChan w with
      | Some _, _ :: rest =>
          Some (shutdown env
                  (set_supervisors (delete i (supervisors w))
                     (set_signalChan rest w)))
      | _, _ => None
      end
  | SupervisorDone i env =>
      match supervisors w !! i with
      | Some ctx =>
          if is_done w ctx
          then Some (shutdown env
                       (set_supervisors (delete i (supervisors w)) w))
          else None
      | None => None
      end
  end.

Fixpoint run (ops : list Op) (w : World) : option World :=
  match ops with
  | [] => Some w
  | op :: ops' =>
      match step op w with
      | Some w' => run ops' w'
      | None => None
      end
  end.

(** [Stop()]. *)
Definition Stop (env : ShutdownEnv) : list Op := [StopSend; StopShutdown env].

(** Counting calls in a log. *)
Definition is_NewTracerProvider (e : Event) : bool :=
  match e with NewTracerProvider _ => true | _ => false end.

Definition is_GoSupervisor (e : Event) : bool :=
  match e with GoSupervisor _ => true | _ => false end.

Definition is_ForceFlush (e : Event) : bool :=
  match e with ForceFlush _ => true | _ => false end.

Definition count (p : Event -> bool) (l : list Event) : nat :=
  length (List.filter p l).

End Lifecycle.

(** ** Recording API *)

Module Recording.
Import Go Codec Trace Config Lifecycle.

(** *** Contexts *)

(** A context key is an [interface{}]: its dynamic type is part of its
    identity, so the [string] ["k"] and the [contextKey] ["k"] differ. *)
Inductive key : Type :=
| KString (s : string)
| KContextKey (s : string).

#[global] Instance key_eq_dec : EqDecision key.
Proof. solve_decision. Defined.

(** A context value is an [interface{}] as well. *)
Inductive any : Type :=
| Nil
| Str (s : string)
| Other (n : Z).

Record SpanContext : Type := {
  sc_TraceID : TraceID
}.

(** The chain of [context.WithValue] calls, innermost first, and the span
    context the [otel] package keeps in it. *)
Record Context : Type := {
  ctx_values : list (key * any);
  ctx_span : SpanContext
}.

Definition context_Background : Context :=
  {| ctx_values := []; ctx_span := {| sc_TraceID := nilTraceID |} |}.

Definition WithValue (ctx : Context) (k : key) (v : any) : Context :=
  {| ctx_values := (k, v) :: ctx_values ctx; ctx_span := ctx_span ctx |}.

Fixpoint lookup_value (vs : list (key * any)) (k : key) : any :=
  match vs with
  | [] => Nil
  | (k', v) :: vs' => if bool_decide (k' = k) then v else lookup_value vs' k
  end.

Definition Value (ctx : Context) (k : key) : any :=
  lookup_value (ctx_values ctx) k.

Definition SpanContextFromContext (ctx : Context) : SpanContext := ctx_span ctx.

Definition ContextWithSpanContext (ctx : Context) (sc : SpanContext) : Context :=
  {| ctx_values := ctx_values ctx; ctx_span := sc |}.

Definition WithTraceID (sc : SpanContext) (tid : TraceID) : SpanContext :=
  {| sc_TraceID := tid |}.

(** *** Propagation keys *)

Definition Scout : string := "scout".
Definition RequestID : string := (Scout ++ "RequestID")%string.
Definition SessionSecureID : string := (Scout ++ "SessionSecureID")%string.

Definition ScopedKey (k : string) (separator : option string) : string :=
  let sep := match separator with Some s => s | None => "." end in
  (Scout ++ sep ++ k)%string.

Definition consumeErrorWorkerStopped : string := "scout worker stopped".

(** [if v := ...; v != nil { x = v.(string) }]: the assertion panics on a
    value that is not a string. *)
Definition assign_string (cur : string) (v : any) : outcome string :=
  match v with
  | Nil => Ok cur
  | Str s => Ok s
  | Other _ => Panic
  end.

Definition validateRequest (w : World) (ctx : Context)
  : outcome (string * string * option error) :=
  let sessionSecureID := "" in
  let requestID := "" in
  if bool_decide (state w = stopped) then
    Ok (sessionSecureID, requestID, Some (errors_New consumeErrorWorkerStopped))
  else
    bind (assign_string sessionSecureID (Value ctx (KString SessionSecureID)))
      (fun sessionSecureID =>
    bind (assign_string sessionSecureID (Value ctx (KContextKey SessionSecureID)))
      (fun sessionSecureID =>
    bind (assign_string requestID (Value ctx (KString RequestID)))
      (fun requestID =>
    bind (assign_string requestID (Value ctx (KContextKey RequestID)))
      (fun requestID =>
    Ok (sessionSecureID, requestID, None))))).

(** [InterceptRequestWithContext], given the value of the
    [X-Scout-Request] header. *)
Definition InterceptRequestWithContext (ctx : Context) (header : string)
  : Context :=
  let ids := Split header "/" in
  if (length ids <? 2)%nat then ctx
  else
    let ctx := WithValue ctx (KContextKey SessionSecureID) (Str (nth 0 ids "")) in
    let ctx := WithValue ctx (KContextKey RequestID) (Str (nth 1 ids "")) in
    ctx.

(** *** Spans *)

Inductive AttrValue : Type :=
| VString (s : string)
| VFloat64 (q : Q)
| VCapturedStack.

Definition KeyValue : Type := string * AttrValue.

Record Span : Type := {
  span_TraceID : TraceID;
  span_Name : string;
  span_Opts : list SpanStartOption;
  span_Attributes : list KeyValue;
  span_Events : list (string * list KeyValue)
}.

Definition SetAttributes (kvs : list KeyValue) (sp : Span) : Span :=
  {| span_TraceID := span_TraceID sp; span_Name := span_Name sp;
     span_Opts := span_Opts sp;
     span_Attributes := span_Attributes sp ++ kvs;
     span_Events := span_Events sp |}.

Definition AddEvent (name : string) (kvs : list KeyValue) (sp : Span) : Span :=
  {| span_TraceID := span_TraceID sp; span_Name := span_Name sp;
     span_Opts := span_Opts sp;
     span_Attributes := span_Attributes sp;
     span_Events := span_Events sp ++ [(name, kvs)] |}.

(** [tracer.Start] of the SDK: a valid parent trace identity is kept,
    otherwise the identity generator supplies one ([fresh]). *)
Definition tracer_Start (fresh : TraceID) (ctx : Context) (name : string)
  (opts : list SpanStartOption) (w : World) : Context * Span * World :=
  let psc := SpanContextFromContext ctx in
  let tid := if IsValid (sc_TraceID psc) then sc_TraceID psc else fresh in
  let span := {| span_TraceID := tid; span_Name := name; span_Opts := opts;
                 span_Attributes := []; span_Events := [] |} in
  (ContextWithSpanContext ctx {| sc_TraceID := tid |}, span,
   emit [TracerStart (sc_TraceID psc) name opts] w).

Definition ProjectIDAttribute : string := "scout.project_id".
Definition SessionIDAttribute : string := "scout.session_id".
Definition RequestIDAttribute : string := "scout.trace_id".
Definition MetricEvent : string := "metric".
Definition MetricEventName : string := "metric.name".
Definition MetricEventValue : string := "metric.value".

(** The three lines that turn a request identifier into a trace identity;
    both errors are dropped. *)
Definition traceIDFromRequestID (requestID : string) : TraceID :=
  let '(data, _) := base64_DecodeString requestID in
  let hex := Sprintf_032x data in
  let '(tid, _) := TraceIDFromHex hex in
  tid.

Definition StartTraceWithTimestamp (fresh : TraceID) (ctx : Context)
  (name : string) (t : Z) (opts : list SpanStartOption)
  (tags : list KeyValue) (w : World) : outcome (Span * Context * World) :=
  bind (validateRequest w ctx) (fun '(sessionID, requestID, _) =>
    let spanCtx := SpanContextFromContext ctx in
    let spanCtx :=
      if negb (String.eqb requestID "")
      then WithTraceID spanCtx (traceIDFromRequestID requestID)
      else spanCtx in
    let opts := opts ++ [WithTimestamp t] in
    let '(ctx, span, w) :=
      tracer_Start fresh (ContextWithSpanContext ctx spanCtx) name opts w in
    let span :=
      SetAttributes [(ProjectIDAttribute, VString (projectID (conf w)));
                     (SessionIDAttribute, VString sessionID);
                     (RequestIDAttribute, VString requestID)] span in
    let span := SetAttributes tags span in
    Ok (span, ctx, w)).

Definition StartTrace (fresh : TraceID) (ctx : Context) (name : string)
  (now : Z) (tags : list KeyValue) (w : World)
  : outcome (Span * Context * World) :=
  StartTraceWithTimestamp fresh ctx name now [] tags w.

(** [EndTrace]: the span is finished and handed to the span processors. *)
Definition EndTrace (span : Span) (w : World) : World :=
  emit [SpanEnd (span_TraceID span) (span_Name span)] w.

Definition RecordMetric (fresh : TraceID) (ctx : Context) (name : string)
  (value : Q) (now : Z) (tags : list KeyValue) (w : World) : outcome World :=
  bind (StartTraceWithTimestamp fresh ctx (ScopedKey "metric" (Some "-")) now
          [WithSpanKind SpanKindClient] tags w)
    (fun '(span, _, w) =>
       let span := AddEvent MetricEvent
                     [(MetricEventName, VString name);
                      (MetricEventValue, VFloat64 value)] span in
       Ok (EndTrace span w)).

(** An [error] value as the recording path sees it: its message, its
    dynamic type, the stack it carries when it implements [ErrorWithStack],
    and [Op]/[URL] when it is a [*url.Error]. *)
Record GoError : Type := {
  err_Error : string;
  err_Type : string;
  err_StackTrace : option string;
  err_URL : option (string * string)
}.

Definition ExceptionEventName : string := "exception".

Definition RecordSpanErrorWithStack (span : Span) (err : GoError)
  (stack : string) : Span :=
  AddEvent ExceptionEventName
    [("exception.type", VString (err_Type err));
     ("exception.message", VString (err_Error err));
     ("exception.stacktrace", VString stack)] span.

Definition RecordSpanError (span : Span) (err : GoError)
  (tags : list KeyValue) : Span :=
  let span :=
    match err_URL err with
    | Some (op, url) =>
        SetAttributes [("URL", VString url)]
          (SetAttributes [("Op", VString op)] span)
    | None => span
    end in
  let span := SetAttributes tags span in
  match err_StackTrace err with
  | Some stack => RecordSpanErrorWithStack span err stack
  | None =>
      AddEvent ExceptionEventName
        [("exception.type", VString (err_Type err));
         ("exception.message", VString (err_Error err));
         ("exception.stacktrace", VCapturedStack)] span
  end.

Definition RecordError (fresh : TraceID) (ctx : Context) (err : GoError)
  (now : Z) (tags : list KeyValue) (w : World) : outcome (Context * World) :=
  bind (StartTraceWithTimestamp fresh ctx (ScopedKey "ctx" (Some "-")) now
          [WithSpanKind SpanKindClient] tags w)
    (fun '(span, ctx, w) =>
       let span := RecordSpanError span err [] in
       Ok (ctx, EndTrace span w)).

End Recording.

(** ** Remaining options and accessors *)

Module Options.
Import Go Config Lifecycle.

Definition WithMetricSamplingRate (samplingRate : Q) : Option := fun c =>
  {| otelEndpoint := otelEndpoint c; projectID := projectID c;
     resourceAttributes := resourceAttributes c;
     metricSamplingRate := samplingRate;
     samplingRateMap := samplingRateMap c |}.

Definition append_resource (attr : string * string) : Option := fun c =>
  {| otelEndpoint := otelEndpoint c; projectID := projectID c;
     resourceAttributes := resourceAttributes c ++ [attr];
     metricSamplingRate := metricSamplingRate c;
     samplingRateMap := samplingRateMap c |}.

Definition WithServiceName (serviceName : string) : Option :=
  append_resource ("service.name", serviceName).

Definition WithServiceVersion (serviceVersion : string) : Option :=
  append_resource ("service.version", serviceVersion).

Definition WithEnvironment (environment : string) : Option :=
  append_resource ("deployment.environment", environment).

Definition SetOtelEndpoint (newotelEndpoint : string) (w : World) : World :=
  set_conf {| otelEndpoint := newotelEndpoint; projectID := projectID (conf w);
              resourceAttributes := resourceAttributes (conf w);
              metricSamplingRate := metricSamplingRate (conf w);
              samplingRateMap := samplingRateMap (conf w) |} w.



Definition GetMetricSamplingRate (w : World) : Q := metricSamplingRate (conf w).

(** [Init] and [Start] are [StartWithContext] on [context.Background()]. *)
Definition Init (opts : list Option) (env : StartEnv) (w : World) : World :=
  StartWithContext Background opts env w.

Definition Start (opts : list Option) (env : StartEnv) (w : World) : World :=
  StartWithContext Background opts env w.

End Options.

(** ** Spans without resource attributes *)

Module Blank.
Import Go Trace Config Lifecycle Recording.



End Blank.

(** ** Metric helpers (package [metric]) *)

Module Metric.
Import Go Trace Config Lifecycle Recording Options.

(** [math.Min] on finite values. *)
Definition math_Min (x y : Q) : Q := if Qle_bool x y then x else y.

(** [shouldRecordMetric]; [rnd] is what [rand.Float64()] returned, a value
    in [0, 1). *)
Definition shouldRecordMetric (rnd rate : Q) (w : World) : bool :=
  Qle_bool rnd (math_Min rate (GetMetricSamplingRate w)).

Definition Histogram (rnd : Q) (fresh : TraceID) (ctx : Context)
  (name : string) (value : Q) (tags : list KeyValue) (rate : Q) (now : Z)
  (w : World) : outcome World :=
  if negb (shouldRecordMetric rnd rate w) then Ok w
  else RecordMetric fresh ctx name value now tags w.

Definition Increment (rnd : Q) (fresh : TraceID) (ctx : Context)
  (name : string) (tags : list KeyValue) (rate : Q) (now : Z)
  (w : World) : outcome World :=
  if negb (shouldRecordMetric rnd rate w) then Ok w
  else RecordMetric fresh ctx name 1 now tags w.

End Metric.

(** ** Web middleware (packages [middleware], [chi], [gorillamux], [echo],
    [gin]) *)

Module Middleware.
Import Go Trace Config Lifecycle Recording Correlation.

(** An [*http.Request] as the middleware reads it: [Header.Get], the
    remote address, and the request's context. *)
Record Request : Type := {
  req_Header : string -> string;
  req_RemoteAddr : string;
  req_Context : Context
}.

Definition WithContext (r : Request) (ctx : Context) : Request :=
  {| req_Header := req_Header r; req_RemoteAddr := req_RemoteAddr r;
     req_Context := ctx |}.

(** [strings.Contains(s, sep)] for a one-byte separator. *)
Definition Contains (s : string) (sep : ascii) : bool := negb (sep_free sep s).

Definition GetIPAddress (r : Request) : string :=
  let IPAddress := req_Header r "X-Real-Ip" in
  let IPAddress :=
    if String.eqb IPAddress "" then req_Header r "X-Client-IP"
    else IPAddress in
  let IPAddress :=
    if String.eqb IPAddress "" then
      let IPAddress := req_Header r "X-Forwarded-For" in
      if negb (String.eqb IPAddress "") && Contains IPAddress ","
      then
        let ipList := Split IPAddress "," in
        if (0 <? length ipList)%nat then nth 0 ipList "" else IPAddress
      else IPAddress
    else IPAddress in
  let IPAddress :=
    if String.eqb IPAddress "" then req_RemoteAddr r else IPAddress in
  IPAddress.

(** [InterceptRequest]. *)
Definition InterceptRequest (r : Request) : Context :=
  InterceptRequestWithContext (req_Context r) (req_Header r "X-Scout-Request").

Definition SourceAttribute : string := "scout.source".

(** The handler that the chi and the gorilla middleware wrap around [next];
    [source] is the value of the source attribute and [attrs] stands for
    [middleware.GetRequestAttributes].  The result is the span as it is
    when the deferred [EndTrace] runs. *)
Definition http_Middleware (key source : string)
  (next : Request -> World -> World) (attrs : Request -> list KeyValue)
  (fresh : TraceID) (now : Z) (r : Request) (w : World)
  : outcome (Span * World) :=
  let ctx := InterceptRequest r in
  bind (StartTrace fresh ctx (ScopedKey key None) now [] w)
    (fun '(span, ctx, w) =>
       let r := WithContext r ctx in
       let w := next r w in
       let span := SetAttributes [(SourceAttribute, VString source)] span in
       let span := SetAttributes (attrs r) span in
       Ok (span, EndTrace span w)).

Definition chi_Middleware := http_Middleware "chi" "GoChiMiddleware".

Definition gorillamux_Middleware :=
  http_Middleware "gorillamux" "GoGorillaMuxMiddleware".

(** The context the echo handler builds before it starts its span. *)
Definition echo_context (r : Request) : Context :=
  let ctx := req_Context r in
  let requestDetails := req_Header r RequestTracerHeader in
  let '(sessionSecureId, requestId, err) :=
    ExtractIdsFromRequest requestDetails in
  match err with
  | None =>
      let ctx := WithValue ctx (KContextKey SessionSecureID) (Str sessionSecureId) in
      let ctx := WithValue ctx (KContextKey RequestID) (Str requestId) in
      ctx
  | Some _ => ctx
  end.

(** The echo handler; [next] returns the handler's error, if any. *)
Definition echo_Middleware
  (next : Request -> World -> World * option GoError)
  (attrs : Request -> list KeyValue)
  (fresh : TraceID) (now : Z) (r : Request) (w : World)
  : outcome (Span * World * option GoError) :=
  let ctx := echo_context r in
  bind (StartTrace fresh ctx (ScopedKey "echo" None) now [] w)
    (fun '(span, scoutContext, w) =>
       let r := WithContext r scoutContext in
       let '(w, err) := next r w in
       let span := SetAttributes [(SourceAttribute, VString "GoEchoMiddleware")] span in
       let span := SetAttributes (attrs r) span in
       let span :=
         match err with
         | Some e => RecordSpanError span e []
         | None => span
         end in
       Ok (span, EndTrace span w, err)).





End Middleware.

(** * Properties *)

(** ** Splitting and joining *)

Section SplitFacts.
Import Go.

Lemma Split_nonempty s sep : Split s sep <> [].
Proof.
  induction s as [|c s IH]; simpl; [discriminate|].
  destruct (Ascii.eqb c sep); [discriminate|].
  destruct (Split s sep); discriminate.
Qed.

Lemma Join_cons e e' rest sep :
  Join (e :: e' :: rest) sep = (e ++ String sep (Join (e' :: rest) sep))%string.
Proof. reflexivity. Qed.

(** Joining the segments back gives the input. *)
Lemma Join_Split s sep : Join (Split s sep) sep = s.
Proof.
  induction s as [|c s IH]; [reflexivity|].
  simpl Split. destruct (Ascii.eqb c sep) eqn:E.
  - apply Ascii.eqb_eq in E. subst c.
    pose proof (Split_nonempty s sep) as Hne.
    destruct (Split s sep) as [|e rest]; [congruence|].
    rewrite Join_cons, IH. reflexivity.
  - pose proof (Split_nonempty s sep) as Hne.
    destruct (Split s sep) as [|e rest]; [congruence|].
    destruct rest as [|e' rest].
    + simpl in *. now rewrite IH.
    + rewrite <- IH. reflexivity.
Qed.

(** No segment contains the separator. *)
Lemma Split_sep_free s sep :
  Forall (fun seg => sep_free sep seg = true) (Split s sep).
Proof.
  induction s as [|c s IH]; simpl.
  - repeat constructor.
  - destruct (Ascii.eqb c sep) eqn:E.
    + constructor; [reflexivity | exact IH].
    + destruct (Split s sep) as [|e rest].
      * repeat constructor. simpl. now rewrite E.
      * inversion IH; subst. constructor; [|assumption].
        simpl. rewrite E. assumption.
Qed.

(** A separator-free string is its own single segment. *)
Lemma Split_sep_free_one s sep : sep_free sep s = true -> Split s sep = [s].
Proof.
  induction s as [|c s IH]; simpl; [reflexivity|].
  intros H. apply andb_true_iff in H as [Hc Hs].
  apply negb_true_iff in Hc. rewrite Hc, (IH Hs). reflexivity.
Qed.

(** Splitting [a ++ sep ++ rest] with [a] separator-free peels [a] off. *)
Lemma Split_app a rest sep :
  sep_free sep a = true ->
  Split (a ++ String sep rest)%string sep = a :: Split rest sep.
Proof.
  induction a as [|c a IH]; simpl; intros H.
  - now rewrite Ascii.eqb_refl.
  - apply andb_true_iff in H as [Hc Ha].
    apply negb_true_iff in Hc. rewrite Hc, (IH Ha). reflexivity.
Qed.

(** Fewer than two segments means exactly: no separator in the input. *)
Lemma Split_short s sep :
  (length (Split s sep) < 2)%nat <-> sep_free sep s = true.
Proof.
  split.
  - induction s as [|c s IH]; simpl; [reflexivity|].
    destruct (Ascii.eqb c sep) eqn:E.
    + pose proof (Split_nonempty s sep).
      destruct (Split s sep); simpl; [congruence | lia].
    + destruct (Split s sep) as [|e rest] eqn:Es; simpl in *.
      * intros _. pose proof (Split_nonempty s sep). congruence.
      * intros H. now apply IH.
  - intros H. rewrite (Split_sep_free_one _ _ H). simpl. lia.
Qed.

End SplitFacts.

(** ** Correlation token parsing *)

Section CorrelationFacts.
Import Go Correlation.

Example ExtractIds_abc_def :
  ExtractIdsFromRequest "abc/def" = ("abc", "def", None).
Proof. reflexivity. Qed.

Example ExtractIds_qwerty :
  ExtractIdsFromRequest "qwerty" = ("", "", Some errNoTracerIDs).
Proof. reflexivity. Qed.

Example ExtractIds_empty :
  ExtractIdsFromRequest "" = ("", "", Some errNoTracerIDs).
Proof. reflexivity. Qed.

Example ExtractIds_extra :
  ExtractIdsFromRequest "s/r/x/y" = ("s", "r", None).
Proof. reflexivity. Qed.

Example ExtractIds_empty_segments :
  ExtractIdsFromRequest "/" = ("", "", None).
Proof. reflexivity. Qed.

(** A token made of two separator-free parts, possibly followed by more
    segments, parses to those two parts. *)
Lemma ExtractIds_two_parts a b :
  sep_free "/" a = true -> sep_free "/" b = true ->
  ExtractIdsFromRequest (a ++ String "/" b)%string = (a, b, None).
Proof.
  intros Ha Hb. unfold ExtractIdsFromRequest.
  rewrite (Split_app _ _ _ Ha), (Split_sep_free_one _ _ Hb). reflexivity.
Qed.

Lemma ExtractIds_more_parts a b rest :
  sep_free "/" a = true -> sep_free "/" b = true ->
  ExtractIdsFromRequest (a ++ String "/" (b ++ String "/" rest))%string
  = (a, b, None).
Proof.
  intros Ha Hb. unfold ExtractIdsFromRequest.
  rewrite (Split_app _ _ _ Ha), (Split_app _ _ _ Hb).
  pose proof (Split_nonempty rest "/").
  destruct (Split rest "/"); [congruence | reflexivity].
Qed.

(** C7: parsing splits the token on the slash; with two segments or more it
    returns segment 0 and segment 1 unchanged and no error, whatever follows;
    with fewer (the input has no slash, the empty input included) it fails
    with the invalid-token error. *)
Theorem ExtractIdsFromRequest_spec (requestDetails : string) :
  let ids := Split requestDetails "/" in
  (Join ids "/" = requestDetails /\
   Forall (fun seg => sep_free "/" seg = true) ids) /\
  ((2 <= length ids)%nat ->
     ExtractIdsFromRequest requestDetails
     = (nth 0 ids "", nth 1 ids "", None)) /\
  ((length ids < 2)%nat ->
     sep_free "/" requestDetails = true /\
     ExtractIdsFromRequest requestDetails = ("", "", Some errNoTracerIDs)) /\
  ExtractIdsFromRequest "" = ("", "", Some errNoTracerIDs).
Proof.
  intros ids. repeat split.
  - apply Join_Split.
  - apply Split_sep_free.
  - intros Hlen. unfold ExtractIdsFromRequest. fold ids.
    apply Nat.leb_le in Hlen. now rewrite Hlen.
  - now apply Split_short.
  - unfold ExtractIdsFromRequest. fold ids.
    apply Nat.leb_gt in H. now rewrite H.
Qed.

(** C10: an error from the parser comes with two empty identifiers. *)
Theorem ExtractIdsFromRequest_error_empty
  (requestDetails sessionSecureId requestId : string) (err : error) :
  ExtractIdsFromRequest requestDetails
  = (sessionSecureId, requestId, Some err) ->
  sessionSecureId = "" /\ requestId = "".
Proof.
  unfold ExtractIdsFromRequest.
  destruct (2 <=? length (Split requestDetails "/"))%nat; intros H.
  - discriminate H.
  - injection H as <- <- _. split; reflexivity.
Qed.

Lemma ExtractIdsFromRequest_error_empty_witness :
  ExtractIdsFromRequest "qwerty" = ("", "", Some errNoTracerIDs) /\
  ("" = "" /\ "" = "").
Proof.
  split; [reflexivity|].
  apply (ExtractIdsFromRequest_error_empty "qwerty" "" "" errNoTracerIDs).
  reflexivity.
Defined.

End CorrelationFacts.

(** ** Lifecycle *)

Section LifecycleFacts.
Import Go Config Lifecycle.

Definition no_failure : ShutdownEnv :=
  {| flush_err := None; release_err := None |}.

Definition start_ok : StartEnv :=
  {| exporter_err := None; resource_err := None |}.

Lemma shutdown_not_started env w : state w <> started -> shutdown env w = w.
Proof.
  intros H. unfold shutdown, IsRunning.
  rewrite bool_decide_eq_false_2 by assumption. reflexivity.
Qed.

Lemma shutdown_state env w :
  state (shutdown env w) = match state w with started => stopped | s => s end.
Proof.
  unfold shutdown, IsRunning.
  destruct (state w) eqn:E; simpl; try assumption. reflexivity.
Qed.

(** What a flush or a release failure leaves in the log. *)
Definition logged (e : option error) : list Event :=
  match e with
  | Some err => [LoggerError (error_msg err)]
  | None => []
  end.

Lemma OTLP_shutdown_log o env w :
  log (OTLP_shutdown o env w)
  = log w ++ [ForceFlush (tracerProvider o)] ++ logged (flush_err env)
          ++ [ProviderShutdown (tracerProvider o)] ++ logged (release_err env).
Proof.
  unfold OTLP_shutdown.
  destruct (flush_err env), (release_err env); simpl;
    repeat rewrite <- app_assoc; reflexivity.
Qed.

Lemma OTLP_shutdown_frame o env w :
  let w' := OTLP_shutdown o env w in
  conf w' = conf w /\ state w' = state w /\ otlp w' = otlp w /\
  interruptChan w' = interruptChan w /\ signalChan w' = signalChan w /\
  cancelled w' = cancelled w /\ supervisors w' = supervisors w /\
  providers w' = providers w.
Proof.
  unfold OTLP_shutdown.
  destruct (flush_err env), (release_err env); simpl; repeat split.
Qed.

(** C6: [shutdown] does nothing unless the state is [started]; from
    [started] it flushes the pipeline, then releases it, then sets the state
    to [stopped]; a failing flush or release only adds a log line, and the
    state is [stopped] either way.  A second [shutdown] changes nothing, so
    it does not flush again. *)
Theorem shutdown_spec (env : ShutdownEnv) (w : World) :
  (state w <> started -> shutdown env w = w) /\
  (state w = started ->
     state (shutdown env w) = stopped /\
     log (shutdown env w)
     = log w ++
       match otlp w with
       | Some o =>
           [ForceFlush (tracerProvider o)] ++ logged (flush_err env) ++
           [ProviderShutdown (tracerProvider o)] ++ logged (release_err env)
       | None => []
       end) /\
  (forall env', shutdown env' (shutdown env w) = shutdown env w) /\
  (forall env',
     count is_ForceFlush (log (shutdown env' (shutdown env w)))
     = count is_ForceFlush (log (shutdown env w))).
Proof.
  assert (Hidem : forall env', shutdown env' (shutdown env w) = shutdown env w).
  { intros env'. apply shutdown_not_started. rewrite shutdown_state.
    destruct (state w); discriminate. }
  split; [apply shutdown_not_started|].
  split; [|split; [exact Hidem | intros env'; now rewrite Hidem]].
  intros Hst. split.
  - rewrite shutdown_state, Hst. reflexivity.
  - unfold shutdown, IsRunning. rewrite bool_decide_eq_true_2 by assumption.
    simpl. destruct (otlp w) as [o|].
    + apply OTLP_shutdown_log.
    + now rewrite app_nil_r.
Qed.

(** [Stop(); Stop()] after a start whose flush fails: one flush, one log
    line, and the state is [stopped]. *)
Example shutdown_twice :
  let failing := {| flush_err := Some (errors_New "timeout");
                    release_err := None |} in
  let w1 := StartWithContext Background [] start_ok World_init in
  let w2 := shutdown failing (shutdown failing w1) in
  state w2 = stopped /\
  log w2 = [NewTracerProvider 0; GoSupervisor Background; ForceFlush 0;
            LoggerError "timeout"; ProviderShutdown 0].
Proof. split; reflexivity. Qed.

Lemma StartWithContext_started ctx opts env w :
  state w = started ->
  StartWithContext ctx opts env w = set_conf (apply_opts opts (conf w)) w.
Proof.
  intros H. unfold StartWithContext. simpl.
  rewrite bool_decide_eq_true_2 by assumption. reflexivity.
Qed.

Lemma count_app p l1 l2 : count p (l1 ++ l2) = (count p l1 + count p l2)%nat.
Proof. unfold count. now rewrite List.filter_app, length_app. Qed.

(** The first [StartWithContext] from a state that is not [started]. *)
Lemma StartWithContext_fresh ctx opts env w :
  state w <> started ->
  let w' := StartWithContext ctx opts env w in
  state w' = started /\
  supervisors w' = supervisors w ++ [ctx] /\
  count is_GoSupervisor (log w') = S (count is_GoSupervisor (log w)) /\
  match exporter_err env, resource_err env with
  | None, None =>
      otlp w' = Some {| tracerProvider := providers w |} /\
      count is_NewTracerProvider (log w')
      = S (count is_NewTracerProvider (log w))
  | _, _ =>
      otlp w' = None /\
      count is_NewTracerProvider (log w') = count is_NewTracerProvider (log w)
  end.
Proof.
  intros H. unfold StartWithContext. simpl.
  rewrite bool_decide_eq_false_2 by assumption.
  unfold StartOTLP. simpl.
  destruct (String.prefix "http://" (otelEndpoint (apply_opts opts (conf w))));
    [|destruct (String.prefix "https://"
                  (otelEndpoint (apply_opts opts (conf w))))];
    destruct (exporter_err env), (resource_err env); simpl;
    repeat rewrite count_app; unfold count; simpl;
    repeat split; try reflexivity; lia.
Qed.

(** C5: a [StartWithContext] in state [started] only applies its options:
    no pipeline is built and no supervisor is launched.  So two calls in
    sequence, from a state that is not [started], leave the state [started]
    with one supervisor launched and one pipeline built (none when the
    exporter or the resource could not be constructed). *)
Theorem StartWithContext_idempotent
  (ctx1 ctx2 : DoneCtx) (opts1 opts2 : list Option) (env1 env2 : StartEnv)
  (w : World) :
  (state w = started ->
     let w' := StartWithContext ctx1 opts1 env1 w in
     state w' = started /\ otlp w' = otlp w /\
     supervisors w' = supervisors w /\ log w' = log w /\
     providers w' = providers w) /\
  (state w <> started ->
     let w2 := StartWithContext ctx2 opts2 env2
                 (StartWithContext ctx1 opts1 env1 w) in
     state w2 = started /\
     supervisors w2 = supervisors w ++ [ctx1] /\
     count is_GoSupervisor (log w2) = S (count is_GoSupervisor (log w)) /\
     match exporter_err env1, resource_err env1 with
     | None, None =>
         otlp w2 = Some {| tracerProvider := providers w |} /\
         count is_NewTracerProvider (log w2)
         = S (count is_NewTracerProvider (log w))
     | _, _ =>
         otlp w2 = None /\
         count is_NewTracerProvider (log w2)
         = count is_NewTracerProvider (log w)
     end).
Proof.
  split.
  - intros H. simpl. rewrite (StartWithContext_started _ _ _ _ H).
    simpl. repeat split. assumption.
  - intros H. simpl.
    pose proof (StartWithContext_fresh ctx1 opts1 env1 w H) as Hf.
    simpl in Hf. destruct Hf as (Hs & Hg & Hc & Hp).
    rewrite (StartWithContext_started _ _ _ _ Hs). simpl.
    repeat split; assumption.
Qed.

(** From the initial state: started, one supervisor, one pipeline. *)
Lemma StartWithContext_idempotent_witness :
  let env := {| exporter_err := None; resource_err := None |} in
  let w2 := StartWithContext Background [] env
              (StartWithContext Background [] env World_init) in
  state World_init <> started /\
  state w2 = started /\
  supervisors w2 = [Background] /\
  count is_GoSupervisor (log w2) = 1%nat /\
  otlp w2 = Some {| tracerProvider := 0 |} /\
  count is_NewTracerProvider (log w2) = 1%nat.
Proof.
  assert (H : state World_init <> started) by discriminate.
  split; [exact H|].
  exact (proj2 (StartWithContext_idempotent Background Background [] []
                  {| exporter_err := None; resource_err := None |}
                  {| exporter_err := None; resource_err := None |}
                  World_init) H).
Defined.

(** *** Leaving [stopped] *)

Definition is_start (op : Op) : bool :=
  match op with
  | CallStart _ _ _ => true
  | _ => false
  end.






End LifecycleFacts.

(** ** Recording *)

Section RecordingFacts.
Import Go Codec Trace Config Lifecycle Recording.

(** A context value that a string assertion accepts: absent or a string. *)
Definition stringy (v : any) : Prop :=
  match v with
  | Other _ => False
  | _ => True
  end.

(** What the two reads of one key leave in the result: the typed form
    when present, else the plain form when present, else empty. *)
Lemma validateRequest_running w ctx :
  state w <> stopped ->
  stringy (Value ctx (KString SessionSecureID)) ->
  stringy (Value ctx (KContextKey SessionSecureID)) ->
  stringy (Value ctx (KString RequestID)) ->
  stringy (Value ctx (KContextKey RequestID)) ->
  validateRequest w ctx
  = Ok (match Value ctx (KContextKey SessionSecureID),
              Value ctx (KString SessionSecureID) with
        | Str t, _ => t
        | _, Str s => s
        | _, _ => ""
        end,
        match Value ctx (KContextKey RequestID),
              Value ctx (KString RequestID) with
        | Str t, _ => t
        | _, Str s => s
        | _, _ => ""
        end, None).
Proof.
  intros Hst H1 H2 H3 H4. unfold validateRequest.
  rewrite bool_decide_eq_false_2 by assumption.
  destruct (Value ctx (KString SessionSecureID)),
           (Value ctx (KContextKey SessionSecureID)),
           (Value ctx (KString RequestID)),
           (Value ctx (KContextKey RequestID));
    simpl in *; try contradiction; reflexivity.
Qed.

(** C9: [validateRequest] reads each propagation key under its plain string
    form and then under its typed form; a value under the typed form is the
    one returned, a value under the plain form is returned only when the
    typed form is absent. *)
Theorem validateRequest_typed_key_wins (w : World) (ctx : Context) :
  state w <> stopped ->
  stringy (Value ctx (KString SessionSecureID)) ->
  stringy (Value ctx (KContextKey SessionSecureID)) ->
  stringy (Value ctx (KString RequestID)) ->
  stringy (Value ctx (KContextKey RequestID)) ->
  exists sessionSecureID requestID,
    validateRequest w ctx = Ok (sessionSecureID, requestID, None) /\
    (forall t, Value ctx (KContextKey SessionSecureID) = Str t ->
               sessionSecureID = t) /\
    (forall s, Value ctx (KContextKey SessionSecureID) = Nil ->
               Value ctx (KString SessionSecureID) = Str s ->
               sessionSecureID = s) /\
    (forall t, Value ctx (KContextKey RequestID) = Str t -> requestID = t) /\
    (forall s, Value ctx (KContextKey RequestID) = Nil ->
               Value ctx (KString RequestID) = Str s ->
               requestID = s).
Proof.
  intros Hst H1 H2 H3 H4.
  rewrite (validateRequest_running w ctx Hst H1 H2 H3 H4).
  eexists _, _. split; [reflexivity|].
  repeat split.
  - intros t E. now rewrite E.
  - intros s E1 E2. now rewrite E1, E2.
  - intros t E. now rewrite E.
  - intros s E1 E2. now rewrite E1, E2.
Qed.

(** A context carrying the session identifier under both forms and the
    request identifier under the plain form only. *)
Definition ctx_both_forms : Context :=
  WithValue
    (WithValue
       (WithValue context_Background (KContextKey SessionSecureID) (Str "typed"))
       (KString SessionSecureID) (Str "plain"))
    (KString RequestID) (Str "req").

Lemma validateRequest_typed_key_wins_witness :
  validateRequest World_init ctx_both_forms = Ok ("typed", "req", None).
Proof.
  destruct (validateRequest_typed_key_wins World_init ctx_both_forms)
    as (sid & rid & Hv & Hs & _ & _ & Hr);
    [discriminate | exact I | exact I | exact I | exact I |].
  rewrite Hv, (Hs "typed" eq_refl), (Hr "req" eq_refl eq_refl).
  reflexivity.
Defined.

(** *** Recording in state [stopped] *)

(** The lifecycle check fails in state [stopped] ... *)
Lemma validateRequest_stopped w ctx :
  state w = stopped ->
  validateRequest w ctx
  = Ok ("", "", Some (errors_New consumeErrorWorkerStopped)).
Proof.
  intros H. unfold validateRequest.
  rewrite bool_decide_eq_true_2 by assumption. reflexivity.
Qed.

(** ... and [StartTraceWithTimestamp] drops that error: the tracer is
    asked for a span all the same. *)
Lemma StartTraceWithTimestamp_stopped fresh ctx name t opts tags w :
  state w = stopped ->
  exists span ctx' w',
    StartTraceWithTimestamp fresh ctx name t opts tags w = Ok (span, ctx', w') /\
    log w' = log w ++ [TracerStart (sc_TraceID (ctx_span ctx)) name
                         (opts ++ [WithTimestamp t])].
Proof.
  intros H. unfold StartTraceWithTimestamp.
  rewrite (validateRequest_stopped w ctx H). simpl.
  eexists _, _, _. split; reflexivity.
Qed.

(** The state of the package after [Init(); Stop()]. *)
Definition world_after_stop : World :=
  default World_init
    (run (CallStart Background [] start_ok :: Stop no_failure) World_init).

Definition ctx_test : Context :=
  WithValue
    (WithValue context_Background (KContextKey SessionSecureID) (Str "0"))
    (KContextKey RequestID) (Str "0").

Definition plain_error : GoError :=
  {| err_Error := "error here"; err_Type := "*fmt.wrapError";
     err_StackTrace := None; err_URL := None |}.

Definition fresh_id : TraceID := repeat 9 16.

(** C3 at a concrete input: after [Init(); Stop()] the state is [stopped]
    and the lifecycle check reports it, yet [RecordError] and [RecordMetric]
    still start a span and end it, that is, hand it to the pipeline. *)
Theorem recording_after_stop_reaches_tracer :
  state world_after_stop = stopped /\
  validateRequest world_after_stop ctx_test
  = Ok ("", "", Some (errors_New consumeErrorWorkerStopped)) /\
  (exists ctx' w',
     RecordError fresh_id ctx_test plain_error 0 [] world_after_stop
     = Ok (ctx', w') /\
     log w' = log world_after_stop ++
              [TracerStart nilTraceID "scout-ctx"
                 [WithSpanKind SpanKindClient; WithTimestamp 0];
               SpanEnd fresh_id "scout-ctx"]) /\
  (exists w',
     RecordMetric fresh_id ctx_test "logins.successful" 1 0 [] world_after_stop
     = Ok w' /\
     log w' = log world_after_stop ++
              [TracerStart nilTraceID "scout-metric"
                 [WithSpanKind SpanKindClient; WithTimestamp 0];
               SpanEnd fresh_id "scout-metric"]).
Proof.
  split; [reflexivity|]. split; [reflexivity|]. split.
  - eexists _, _. split; reflexivity.
  - eexists _. split; reflexivity.
Qed.

End RecordingFacts.

(** ** Sampler *)

Section SamplerFacts.
Import Go Trace Config Sampler.

(** *** Truncation *)

Lemma Qtruncate_le (a b : Q) : (a <= b)%Q -> Qtruncate a <= Qtruncate b.
Proof.
  destruct a as [n1 d1], b as [n2 d2]. unfold Qle, Qtruncate. simpl.
  intros H.
  rewrite <- (Z.quot_mul_cancel_r n1 (Z.pos d1) (Z.pos d2)) by lia.
  rewrite <- (Z.quot_mul_cancel_r n2 (Z.pos d2) (Z.pos d1)) by lia.
  rewrite (Z.mul_comm (Z.pos d2) (Z.pos d1)).
  apply Z.quot_le_mono; lia.
Qed.

Lemma Qtruncate_comp (a b : Q) : (a == b)%Q -> Qtruncate a = Qtruncate b.
Proof.
  intros H. apply Z.le_antisymm; apply Qtruncate_le; rewrite H; apply Qle_refl.
Qed.

Lemma Qtruncate_inject (z : Z) : Qtruncate (inject_Z z) = z.
Proof. unfold Qtruncate. simpl. apply Z.quot_1_r. Qed.

(** For a rate that is not negative, truncating is rounding down. *)
Lemma Qtruncate_floor (a : Q) : (0 <= a)%Q -> Qtruncate a = Qfloor a.
Proof.
  destruct a as [n d]. unfold Qle, Qtruncate, Qfloor. simpl.
  intros H. apply Z.quot_div_nonneg; lia.
Qed.

Lemma upper_bound_valid (value : Q) :
  (0 <= value)%Q -> (value <= 1)%Q ->
  upper_bound value = Some (Qtruncate (value * two63)).
Proof.
  intros H0 H1. unfold upper_bound, uint64_of_float64.
  assert (Hlo : 0 <= Qtruncate (value * two63)).
  { change 0 with (Qtruncate (inject_Z 0)). apply Qtruncate_le.
    apply Qmult_le_0_compat; [assumption | discriminate]. }
  assert (Hhi : Qtruncate (value * two63) <= 2 ^ 63).
  { rewrite <- (Qtruncate_inject (2 ^ 63)). apply Qtruncate_le.
    fold two63. rewrite <- (Qmult_1_l two63) at 2.
    apply Qmult_le_compat_r; [assumption | discriminate]. }
  destruct (0 <=? Qtruncate (value * two63)) eqn:E1;
    destruct (Qtruncate (value * two63) <? 2 ^ 64) eqn:E2; simpl;
    try reflexivity; lia.
Qed.

(** *** [getSampler] *)

Definition valid_rates (m : gmap Z Q) : Prop :=
  map_Forall (fun _ value => (0 <= value)%Q /\ (value <= 1)%Q) m.

(** On a configuration whose rates are all within [0, 1], [getSampler]
    is defined. *)
Lemma getSampler_total conf :
  valid_rates (samplingRateMap conf) -> is_Some (getSampler conf).
Proof.
  intros H. unfold getSampler. rewrite bool_decide_eq_true_2; [eauto|].
  intros k v Hk. destruct (H k v Hk) as [H0 H1].
  rewrite (upper_bound_valid v H0 H1). eauto.
Qed.

(** The bound [ShouldSample] compares against. *)
Definition effective_bound (s : sampler) (kind : SpanKind) : Z :=
  match traceIDUpperBounds s !! kind with
  | Some bound => bound
  | None => default 0 (traceIDUpperBounds s !! SpanKindUnspecified)
  end.

Lemma upper_bound_Some value t :
  upper_bound value = Some t -> t = Qtruncate (value * two63).
Proof.
  unfold upper_bound, uint64_of_float64.
  destruct ((0 <=? _) && (_ <? _)); congruence.
Qed.

Lemma getSampler_lookup conf s k :
  getSampler conf = Some s ->
  traceIDUpperBounds s !! k
  = (fun value => Qtruncate (value * two63)) <$> samplingRateMap conf !! k.
Proof.
  unfold getSampler. case_bool_decide as Hall; [|discriminate].
  intros [= <-]. simpl. rewrite lookup_fmap.
  destruct (samplingRateMap conf !! k) as [v|] eqn:E; simpl; [|reflexivity].
  destruct (Hall k v E) as [t Ht]. rewrite Ht. simpl.
  now rewrite (upper_bound_Some _ _ Ht).
Qed.

Lemma getSampler_bound conf s kind :
  getSampler conf = Some s ->
  effective_bound s kind
  = Qtruncate (rate (samplingRateMap conf) kind * two63).
Proof.
  intros H. unfold effective_bound, rate.
  rewrite !(getSampler_lookup conf s _ H).
  destruct (samplingRateMap conf !! kind); simpl; [reflexivity|].
  destruct (samplingRateMap conf !! SpanKindUnspecified); reflexivity.
Qed.

Lemma ShouldSample_decision s sp :
  Decision (ShouldSample s sp)
  = if Z.shiftr (BigEndian_Uint64 (slice 8 16 (sp_TraceID sp))) 1
       <? effective_bound s (sp_Kind sp)
    then RecordAndSample else Drop.
Proof.
  unfold ShouldSample, effective_bound.
  destruct (_ <? _); reflexivity.
Qed.

(** *** The 63 bits compared against the bound *)

Definition is_byte (b : Z) : Prop := 0 <= b < 256.

Lemma lor_shiftl_add (lo hi k : Z) :
  0 <= k -> 0 <= lo < 2 ^ k -> Z.lor lo (Z.shiftl hi k) = lo + hi * 2 ^ k.
Proof.
  intros Hk Hlo.
  assert (Hdisj : Z.land lo (Z.shiftl hi k) = 0).
  { apply Z.bits_inj'. intros n Hn. rewrite Z.land_spec, Z.bits_0.
    destruct (Z.lt_ge_cases n k) as [Hlt|Hge].
    - rewrite Z.shiftl_spec_low by assumption. apply andb_false_r.
    - rewrite <- (Z.mod_small lo (2 ^ k)) by assumption.
      rewrite Z.mod_pow2_bits_high by lia. reflexivity. }
  rewrite <- Z.lxor_lor by assumption.
  rewrite <- Z.add_nocarry_lxor by assumption.
  now rewrite Z.shiftl_mul_pow2.
Qed.

Lemma BigEndian_Uint64_value (b0 b1 b2 b3 b4 b5 b6 b7 : Z) :
  is_byte b0 -> is_byte b1 -> is_byte b2 -> is_byte b3 ->
  is_byte b4 -> is_byte b5 -> is_byte b6 -> is_byte b7 ->
  BigEndian_Uint64 [b0; b1; b2; b3; b4; b5; b6; b7]
  = b7 + b6 * 2 ^ 8 + b5 * 2 ^ 16 + b4 * 2 ^ 24 + b3 * 2 ^ 32
    + b2 * 2 ^ 40 + b1 * 2 ^ 48 + b0 * 2 ^ 56.
Proof.
  unfold is_byte, BigEndian_Uint64. simpl nth. intros.
  rewrite (lor_shiftl_add b7 b6 8) by lia.
  rewrite (lor_shiftl_add _ b5 16) by lia.
  rewrite (lor_shiftl_add _ b4 24) by lia.
  rewrite (lor_shiftl_add _ b3 32) by lia.
  rewrite (lor_shiftl_add _ b2 40) by lia.
  rewrite (lor_shiftl_add _ b1 48) by lia.
  rewrite (lor_shiftl_add _ b0 56) by lia.
  reflexivity.
Qed.

Ltac invert_bytes :=
  repeat match goal with
         | H : Forall _ (_ :: _) |- _ => inversion H; clear H; subst
         | H : Forall _ [] |- _ => clear H
         end.

(** The eight bytes [ShouldSample] reads are the low 64 bits of the
    identity. *)
Lemma low64_BigEndian (t : TraceID) :
  length t = 16%nat -> Forall is_byte t ->
  BigEndian_Uint64 (slice 8 16 t) = Z.land (TraceID_value t) (2 ^ 64 - 1) /\
  0 <= BigEndian_Uint64 (slice 8 16 t) < 2 ^ 64.
Proof.
  intros Hlen Hb.
  do 16 (destruct t as [|? t]; [discriminate Hlen|]).
  destruct t; [|discriminate Hlen]. clear Hlen.
  invert_bytes.
  unfold slice. simpl firstn.
  rewrite BigEndian_Uint64_value by assumption.
  change (2 ^ 64 - 1) with (Z.ones 64). rewrite Z.land_ones by lia.
  unfold TraceID_value. simpl fold_left. unfold is_byte in *.
  split; [|lia].
  apply Z.mod_unique_pos
    with (q := z6 + z5 * 2 ^ 8 + z4 * 2 ^ 16 + z3 * 2 ^ 24 + z2 * 2 ^ 32
               + z1 * 2 ^ 40 + z0 * 2 ^ 48 + z * 2 ^ 56); lia.
Qed.

Lemma low63_BigEndian (t : TraceID) :
  length t = 16%nat -> Forall is_byte t ->
  Z.shiftr (BigEndian_Uint64 (slice 8 16 t)) 1 = low63 t /\
  0 <= low63 t < 2 ^ 63.
Proof.
  intros Hlen Hb. destruct (low64_BigEndian t Hlen Hb) as [E R].
  unfold low63. rewrite <- E. split; [reflexivity|].
  rewrite Z.shiftr_div_pow2 by lia. change (2 ^ 1) with 2.
  split; [apply Z.div_pos; lia|].
  apply Z.div_lt_upper_bound; lia.
Qed.

(** *** The sampling rule *)

Lemma rate_valid (m : gmap Z Q) (kind : Z) :
  valid_rates m -> (0 <= rate m kind)%Q /\ (rate m kind <= 1)%Q.
Proof.
  intros H. unfold rate.
  destruct (m !! kind) as [r|] eqn:E; [exact (H _ _ E)|].
  destruct (m !! SpanKindUnspecified) as [r|] eqn:E0; [exact (H _ _ E0)|].
  simpl. split; discriminate.
Qed.

Lemma decision_cases (x bound : Z) :
  ((if x <? bound then RecordAndSample else Drop) = RecordAndSample
   <-> x < bound) /\
  ((if x <? bound then RecordAndSample else Drop) = Drop <-> bound <= x).
Proof.
  destruct (Z.ltb_spec x bound); split; split; intros; try reflexivity;
    try discriminate; lia.
Qed.

(** C1 (as the code has it): with [x] the low 64 bits of the identity
    shifted right by one and [bound] the product [rate(kind) * 2^63] with
    its fraction discarded, where [rate(kind)] is the map's entry for the
    kind or else its entry for the unspecified kind, the decision is
    record-and-sample exactly when [x < bound], and drop otherwise.  Rate 1
    gives bound [2^63] and samples every identity; rate 0 gives bound 0 and
    samples none. *)
Theorem ShouldSample_rule (conf : config) (sp : SamplingParameters) :
  valid_rates (samplingRateMap conf) ->
  length (sp_TraceID sp) = 16%nat ->
  Forall is_byte (sp_TraceID sp) ->
  exists s,
    getSampler conf = Some s /\
    let x := low63 (sp_TraceID sp) in
    let r := rate (samplingRateMap conf) (sp_Kind sp) in
    let bound := Qfloor (r * two63) in
    (Decision (ShouldSample s sp) = RecordAndSample <-> x < bound) /\
    (Decision (ShouldSample s sp) = Drop <-> bound <= x) /\
    ((r == 1)%Q ->
       bound = 2 ^ 63 /\ Decision (ShouldSample s sp) = RecordAndSample) /\
    ((r == 0)%Q -> bound = 0 /\ Decision (ShouldSample s sp) = Drop).
Proof.
  intros Hv Hlen Hb.
  destruct (getSampler_total conf Hv) as [s Hs]. exists s.
  split; [exact Hs|]. cbv zeta.
  destruct (low63_BigEndian _ Hlen Hb) as [Ex Rx].
  destruct (rate_valid _ (sp_Kind sp) Hv) as [H0 H1].
  assert (Hbound : effective_bound s (sp_Kind sp)
                   = Qfloor (rate (samplingRateMap conf) (sp_Kind sp) * two63)).
  { rewrite (getSampler_bound conf s _ Hs). apply Qtruncate_floor.
    apply Qmult_le_0_compat; [assumption | discriminate]. }
  rewrite ShouldSample_decision, Ex, Hbound.
  destruct (decision_cases (low63 (sp_TraceID sp))
              (Qfloor (rate (samplingRateMap conf) (sp_Kind sp) * two63)))
    as [Hs1 Hs2].
  split; [exact Hs1|]. split; [exact Hs2|]. split.
  - intros E.
    assert (Eb : Qfloor (rate (samplingRateMap conf) (sp_Kind sp) * two63)
                 = 2 ^ 63).
    { rewrite <- (Qfloor_Z (2 ^ 63)). apply Qfloor_comp.
      rewrite E. apply Qmult_1_l. }
    split; [exact Eb|]. apply Hs1. lia.
  - intros E.
    assert (Eb : Qfloor (rate (samplingRateMap conf) (sp_Kind sp) * two63) = 0).
    { rewrite <- (Qfloor_Z 0). apply Qfloor_comp.
      rewrite E. apply Qmult_0_l. }
    split; [exact Eb|]. apply Hs2. lia.
Qed.

(** A rate of one half for client spans, nothing else configured. *)
Definition conf_half : config :=
  WithSamplingRateMap {[ SpanKindClient := (1 # 2)%Q ]} conf_init.

Definition sp_client (t : TraceID) : SamplingParameters :=
  {| sp_ParentTraceState := ""; sp_TraceID := t;
     sp_Name := "scout-ctx"; sp_Kind := SpanKindClient |}.

Lemma valid_rates_singleton (kind : Z) (r : Q) :
  (0 <= r)%Q -> (r <= 1)%Q -> valid_rates {[ kind := r ]}.
Proof. intros H0 H1. apply map_Forall_singleton. split; assumption. Qed.

Lemma ShouldSample_rule_witness :
  exists s,
    getSampler conf_half = Some s /\
    Decision (ShouldSample s (sp_client (repeat 0 8 ++ repeat 127 8)))
    = RecordAndSample /\
    Decision (ShouldSample s (sp_client (repeat 0 8 ++ repeat 128 8)))
    = Drop.
Proof.
  assert (Hv : valid_rates (samplingRateMap conf_half))
    by (apply valid_rates_singleton; discriminate).
  assert (Hb : forall b, is_byte b -> Forall is_byte (repeat 0 8 ++ repeat b 8))
    by (intros b H; simpl;
        repeat (apply List.Forall_cons; [unfold is_byte in *; lia|]);
        apply List.Forall_nil).
  destruct (ShouldSample_rule conf_half (sp_client (repeat 0 8 ++ repeat 127 8))
              Hv eq_refl (Hb 127 ltac:(unfold is_byte; lia)))
    as (s & Hs & H127 & _).
  destruct (ShouldSample_rule conf_half (sp_client (repeat 0 8 ++ repeat 128 8))
              Hv eq_refl (Hb 128 ltac:(unfold is_byte; lia)))
    as (s' & Hs' & _ & H128 & _).
  assert (s' = s) by congruence. subst s'.
  exists s. split; [exact Hs|]. split.
  - apply H127. vm_compute. reflexivity.
  - apply H128. vm_compute. discriminate.
Defined.

(** The rate [1.75 * 2^-63], that is [7 / 2^65]. *)
Definition tiny_rate : Q := 7 # 36893488147419103232.

Definition conf_tiny : config := WithSamplingRate tiny_rate conf_init.

(** C1, as stated, fails: with rate [1.75 * 2^-63] the product is 1.75,
    whose nearest integer is 2 whereas the code's bound is 1; an identity
    with [x = 1] is dropped by the code and sampled by the stated rule. *)
Lemma rounding_counterexample :
  (rate (samplingRateMap conf_tiny) SpanKindClient * two63 == 7 # 4)%Q /\
  spec_round (rate (samplingRateMap conf_tiny) SpanKindClient * two63) = 2 /\
  low63 (repeat 0 15 ++ [2]) = 1 /\
  spec_decide (repeat 0 15 ++ [2]) SpanKindClient (samplingRateMap conf_tiny)
  = RecordAndSample /\
  (fun s => Decision (ShouldSample s (sp_client (repeat 0 15 ++ [2]))))
    <$> getSampler conf_tiny = Some Drop.
Proof. repeat split; vm_compute; reflexivity. Qed.

(** *** Cross-check against IEEE 754 binary64

    The rates used above are [float64] values, and the hardware product
    with [2^63] is the rational product: nothing is rounded. *)

(** The rational a finite [float64] denotes. *)
Definition float64_value (f : PrimFloat.float) : option Q :=
  match Prim2SF f with
  | S754_zero _ => Some 0%Q
  | S754_finite sign m e =>
      let n := if sign then Z.neg m else Z.pos m in
      Some (if 0 <=? e then inject_Z (n * 2 ^ e)
            else n # Pos.pow 2 (Z.to_pos (- e)))
  | S754_infinity _ | S754_nan => None
  end.

Definition denotes (f : PrimFloat.float) (q : Q) : bool :=
  match float64_value f with
  | Some q' => Qeq_bool q' q
  | None => false
  end.

Example tiny_rate_is_float64 :
  denotes 0x1.cp-63%float tiny_rate = true /\
  denotes (0x1.cp-63 * 0x1p63)%float (tiny_rate * two63) = true /\
  denotes (0x1.cp-63 * 0x1p63)%float (7 # 4) = true.
Proof. repeat split; vm_compute; reflexivity. Qed.

Example unit_rates_are_float64 :
  denotes (1 * 0x1p63)%float (1 * two63) = true /\
  denotes (0 * 0x1p63)%float (0 * two63) = true /\
  denotes (0.5 * 0x1p63)%float ((1 # 2) * two63) = true.
Proof. repeat split; vm_compute; reflexivity. Qed.

(** C8: the decision depends on the identity and the kind only, and it is
    monotonic in the rate: an identity sampled under a rate is sampled under
    every rate that is at least as large. *)
Theorem ShouldSample_monotone
  (conf1 conf2 : config) (s1 s2 : sampler) (sp sp' : SamplingParameters) :
  getSampler conf1 = Some s1 ->
  getSampler conf2 = Some s2 ->
  (rate (samplingRateMap conf1) (sp_Kind sp)
   <= rate (samplingRateMap conf2) (sp_Kind sp))%Q ->
  sp_TraceID sp' = sp_TraceID sp ->
  sp_Kind sp' = sp_Kind sp ->
  Decision (ShouldSample s1 sp') = Decision (ShouldSample s1 sp) /\
  (Decision (ShouldSample s1 sp) = RecordAndSample ->
   Decision (ShouldSample s2 sp) = RecordAndSample).
Proof.
  intros H1 H2 Hr Et Ek. split.
  - rewrite !ShouldSample_decision, Et, Ek. reflexivity.
  - rewrite !ShouldSample_decision.
    rewrite (getSampler_bound conf1 s1 _ H1), (getSampler_bound conf2 s2 _ H2).
    assert (Hb : Qtruncate (rate (samplingRateMap conf1) (sp_Kind sp) * two63)
                 <= Qtruncate (rate (samplingRateMap conf2) (sp_Kind sp) * two63)).
    { apply Qtruncate_le. apply Qmult_le_compat_r; [assumption | discriminate]. }
    intros Hs. apply decision_cases in Hs. apply decision_cases. lia.
Qed.

Definition conf_full : config := WithSamplingRate 1%Q conf_init.

Lemma ShouldSample_monotone_witness :
  exists s1 s2,
    getSampler conf_half = Some s1 /\ getSampler conf_full = Some s2 /\
    Decision (ShouldSample s1 (sp_client (repeat 0 8 ++ repeat 127 8)))
    = RecordAndSample /\
    Decision (ShouldSample s2 (sp_client (repeat 0 8 ++ repeat 127 8)))
    = RecordAndSample.
Proof.
  destruct (getSampler conf_half) as [s1|] eqn:E1; [|discriminate E1].
  destruct (getSampler conf_full) as [s2|] eqn:E2; [|discriminate E2].
  exists s1, s2. split; [reflexivity|]. split; [reflexivity|].
  assert (Hs : Decision (ShouldSample s1 (sp_client (repeat 0 8 ++ repeat 127 8)))
               = RecordAndSample).
  { vm_compute in E1. injection E1 as <-. vm_compute. reflexivity. }
  split; [exact Hs|].
  refine (proj2 (ShouldSample_monotone conf_half conf_full s1 s2
                   (sp_client (repeat 0 8 ++ repeat 127 8))
                   (sp_client (repeat 0 8 ++ repeat 127 8))
                   E1 E2 _ eq_refl eq_refl) Hs).
  vm_compute. discriminate.
Defined.

End SamplerFacts.

(** ** Deriving a trace identity from a request identifier *)

Section IdentityFacts.
Import Go Codec Trace Config Lifecycle Recording.

(** *** The decoder writes bytes *)





(** *** Hexadecimal digits *)







(** *** Zero padding *)




(** *** From decoded bytes to an identity *)












(** *** The span's identity *)



Definition ctx_request (requestID : string) : Context :=
  WithValue
    (WithValue context_Background (KContextKey SessionSecureID) (Str "0"))
    (KContextKey RequestID) (Str requestID).

(** The request identifier of the package's tests is not base64; nothing
    is decoded and the span gets the fresh identity. *)
Example requestID_zero :
  base64_DecodeString "0" = ([], Some CorruptInputError) /\
  exists span ctx' w',
    StartTrace fresh_id (ctx_request "0") "scout.chi" 0 [] World_init
    = Ok (span, ctx', w') /\
    span_TraceID span = fresh_id.
Proof. split; [reflexivity|]. eexists _, _, _. split; reflexivity. Qed.

(** A decodable request identifier. *)
Example requestID_decodable :
  base64_DecodeString "AAEC" = ([0; 1; 2], None) /\
  traceIDFromRequestID "AAEC" = repeat 0 13 ++ [0; 1; 2].
Proof. split; reflexivity. Qed.


End IdentityFacts.

(** ** Further properties of the package *)

Section MoreFacts.
Import Go Codec Trace Config Sampler Lifecycle Recording.

(** a scoped key is the prefix [scout], the separator (a dot unless one
    is given) and the key. *)
Theorem ScopedKey_format (k : string) :
  ScopedKey k None = ("scout." ++ k)%string /\
  ScopedKey k (Some "-") = ("scout-" ++ k)%string /\
  ScopedKey "a" None = "scout.a" /\
  ScopedKey "Tracer" (Some "-") = "scout-Tracer".
Proof. repeat split. Qed.

(** [IsRunning] holds exactly in state [started]. *)
Theorem IsRunning_started (w : World) :
  IsRunning w = true <-> state w = started.
Proof. unfold IsRunning. apply bool_decide_eq_true. Qed.

(** X1: the package's [init] replaces [conf] by an empty [config], so
    without a sampling option the rate map is empty, every bound reads as
    zero, and every span is dropped, whatever its identity and kind. *)
Theorem default_configuration_drops (opts : list Option) (sp : SamplingParameters) :
  samplingRateMap (apply_opts opts conf_init) = ∅ ->
  length (sp_TraceID sp) = 16%nat ->
  Forall is_byte (sp_TraceID sp) ->
  exists s,
    getSampler (apply_opts opts conf_init) = Some s /\
    Decision (ShouldSample s sp) = Drop.
Proof.
  intros Hm Hlen Hb.
  assert (Hv : valid_rates (samplingRateMap (apply_opts opts conf_init)))
    by (rewrite Hm; apply map_Forall_empty).
  destruct (getSampler_total _ Hv) as [s Hs]. exists s. split; [exact Hs|].
  rewrite ShouldSample_decision, (getSampler_bound _ s _ Hs).
  unfold rate. rewrite Hm, !lookup_empty. cbn [default].
  destruct (low63_BigEndian _ Hlen Hb) as [-> R].
  apply decision_cases.
  replace (Qtruncate (0 * two63)) with 0 by (vm_compute; reflexivity).
  lia.
Qed.

Lemma default_configuration_drops_witness :
  exists s,
    getSampler (apply_opts [WithProjectID "p"] conf_init) = Some s /\
    Decision (ShouldSample s (sp_client (repeat 0 16))) = Drop.
Proof.
  apply (default_configuration_drops [WithProjectID "p"]
           (sp_client (repeat 0 16)) eq_refl eq_refl).
  simpl. repeat (apply List.Forall_cons; [unfold is_byte; lia|]).
  apply List.Forall_nil.
Defined.

(** X2: a header with at least two segments is attached to the context
    under the typed keys and read back by [validateRequest]; a header
    without a slash leaves the context as it was. *)
Theorem InterceptRequest_roundtrip (w : World) (ctx : Context) (header : string) :
  state w <> stopped ->
  stringy (Value ctx (KString SessionSecureID)) ->
  stringy (Value ctx (KString RequestID)) ->
  let ids := Split header "/" in
  ((2 <= length ids)%nat ->
     validateRequest w (InterceptRequestWithContext ctx header)
     = Ok (nth 0 ids "", nth 1 ids "", None)) /\
  ((length ids < 2)%nat -> InterceptRequestWithContext ctx header = ctx).
Proof.
  intros Hst H1 H2 ids. unfold InterceptRequestWithContext. fold ids. split.
  - intros Hlen. apply Nat.ltb_ge in Hlen. rewrite Hlen.
    rewrite validateRequest_running; try assumption; try exact I.
    reflexivity.
  - intros Hlen. apply Nat.ltb_lt in Hlen. now rewrite Hlen.
Qed.

Lemma InterceptRequest_roundtrip_witness :
  validateRequest World_init
    (InterceptRequestWithContext context_Background "abc/def")
  = Ok ("abc", "def", None).
Proof.
  refine (proj1 (InterceptRequest_roundtrip World_init context_Background
                   "abc/def" _ I I) _).
  - discriminate.
  - simpl. lia.
Defined.

(** the two propagation keys are the prefix and the name with nothing
    in between. *)
Theorem propagation_keys :
  RequestID = "scoutRequestID" /\ SessionSecureID = "scoutSessionSecureID".
Proof. split; reflexivity. Qed.

(** X3: with the interrupt already buffered and no supervisor left to take
    it, the send in [Stop] cannot proceed, and no step other than a start
    changes that. *)
Theorem Stop_blocks_without_supervisor (w : World) :
  interruptChan w = [true] ->
  supervisors w = [] ->
  step StopSend w = None /\
  (forall op w', is_start op = false -> step op w = Some w' ->
                 interruptChan w' = [true] /\ supervisors w' = []).
Proof.
  intros Hc Hs. split.
  - simpl. rewrite Hc. reflexivity.
  - intros op w' Hop Hstep.
    assert (Hsh : forall env, interruptChan (shutdown env w) = [true] /\
                              supervisors (shutdown env w) = []).
    { intros env. unfold shutdown.
      destruct (negb (IsRunning w)); [split; assumption|].
      destruct (otlp w) as [o|]; simpl; [|split; assumption].
      destruct (OTLP_shutdown_frame o env w) as (_ & _ & _ & Hi & _ & _ & Hg & _).
      simpl in Hi, Hg. rewrite Hi, Hg. split; assumption. }
    destruct op; simpl in Hop, Hstep; try discriminate Hop.
    + rewrite Hc in Hstep. discriminate Hstep.
    + inversion Hstep. apply Hsh.
    + destruct (length (signalChan w) <? chan_cap)%nat; inversion Hstep;
        subst; split; assumption.
    + inversion Hstep. split; assumption.
    + rewrite Hs in Hstep. discriminate Hstep.
    + rewrite Hs in Hstep. discriminate Hstep.
    + rewrite Hs in Hstep. discriminate Hstep.
Qed.

(** The state after [Init(); Stop(); Stop()], the supervisor having taken
    the first interrupt: a third [Stop] is stuck at its send. *)
Definition world_after_two_stops : World :=
  default World_init
    (run (CallStart Background [] start_ok :: Stop no_failure
          ++ [SupervisorInterrupt 0] ++ Stop no_failure) World_init).

Lemma Stop_blocks_without_supervisor_witness :
  state world_after_two_stops = stopped /\
  step StopSend world_after_two_stops = None.
Proof.
  split; [vm_compute; reflexivity|].
  refine (proj1 (Stop_blocks_without_supervisor world_after_two_stops _ _));
    vm_compute; reflexivity.
Defined.

End MoreFacts.

(** ** Recording calls: panics, effects, attributes, trace continuity *)

Section RecordingMore.
Import Go Codec Trace Config Lifecycle Recording Options Blank.

(** *** When a recording call panics *)

Lemma assign_string_Panic cur v : assign_string cur v = Panic <-> ~ stringy v.
Proof. destruct v; simpl; split; intros H; try discriminate; tauto. Qed.

Lemma validateRequest_Panic w ctx :
  validateRequest w ctx = Panic <->
  state w <> stopped /\
  ~ (stringy (Value ctx (KString SessionSecureID)) /\
     stringy (Value ctx (KContextKey SessionSecureID)) /\
     stringy (Value ctx (KString RequestID)) /\
     stringy (Value ctx (KContextKey RequestID))).
Proof.
  unfold validateRequest.
  destruct (decide (state w = stopped)) as [Hs|Hs].
  - rewrite bool_decide_eq_true_2 by assumption.
    split; [discriminate | intros [H _]; contradiction].
  - rewrite bool_decide_eq_false_2 by assumption.
    destruct (Value ctx (KString SessionSecureID)),
             (Value ctx (KContextKey SessionSecureID)),
             (Value ctx (KString RequestID)),
             (Value ctx (KContextKey RequestID));
      simpl; split; intros H; try discriminate; try reflexivity;
      try (split; [assumption | tauto]);
      destruct H as [_ H]; exfalso; apply H; repeat split.
Qed.

Lemma bind_Panic {A B} (m : outcome A) (k : A -> outcome B) :
  (forall a, k a <> Panic) -> (bind m k = Panic <-> m = Panic).
Proof.
  intros Hk. destruct m as [a|]; simpl; [|tauto].
  split; intros H; [destruct (Hk a H) | discriminate].
Qed.

Lemma StartTraceWithTimestamp_Panic fresh ctx name t opts tags w :
  StartTraceWithTimestamp fresh ctx name t opts tags w = Panic <->
  validateRequest w ctx = Panic.
Proof.
  unfold StartTraceWithTimestamp. apply bind_Panic.
  intros [[sid rid] e]. discriminate.
Qed.

(** X4: a recording call panics exactly when the state is not [stopped] and one
    of the two propagation keys, under either form, holds a value that is
    not a string. *)
Theorem recording_panics_iff
  (fresh : TraceID) (ctx : Context) (name : string) (value : Q)
  (err : GoError) (now : Z) (tags : list KeyValue) (w : World) :
  let bad :=
    state w <> stopped /\
    ~ (stringy (Value ctx (KString SessionSecureID)) /\
       stringy (Value ctx (KContextKey SessionSecureID)) /\
       stringy (Value ctx (KString RequestID)) /\
       stringy (Value ctx (KContextKey RequestID))) in
  (validateRequest w ctx = Panic <-> bad) /\
  (StartTrace fresh ctx name now tags w = Panic <-> bad) /\
  (RecordMetric fresh ctx name value now tags w = Panic <-> bad) /\
  (RecordError fresh ctx err now tags w = Panic <-> bad).
Proof.
  cbv zeta. rewrite <- validateRequest_Panic. split; [reflexivity|].
  split; [apply StartTraceWithTimestamp_Panic|]. split.
  - unfold RecordMetric. rewrite bind_Panic.
    + apply StartTraceWithTimestamp_Panic.
    + intros [[sp c] w']. discriminate.
  - unfold RecordError. rewrite bind_Panic.
    + apply StartTraceWithTimestamp_Panic.
    + intros [[sp c] w']. discriminate.
Qed.

(** *** What a recording call changes *)


Lemma StartTraceWithTimestamp_Ok fresh ctx name t opts tags w sid rid e :
  validateRequest w ctx = Ok (sid, rid, e) ->
  let parent :=
    if negb (String.eqb rid "") then traceIDFromRequestID rid
    else sc_TraceID (ctx_span ctx) in
  let tid := if IsValid parent then parent else fresh in
  StartTraceWithTimestamp fresh ctx name t opts tags w
  = Ok ({| span_TraceID := tid; span_Name := name;
           span_Opts := opts ++ [WithTimestamp t];
           span_Attributes :=
             [(ProjectIDAttribute, VString (projectID (conf w)));
              (SessionIDAttribute, VString sid);
              (RequestIDAttribute, VString rid)] ++ tags;
           span_Events := [] |},
        {| ctx_values := ctx_values ctx; ctx_span := {| sc_TraceID := tid |} |},
        emit [TracerStart parent name (opts ++ [WithTimestamp t])] w).
Proof.
  intros Hv. unfold StartTraceWithTimestamp. rewrite Hv. simpl.
  destruct (String.eqb rid ""); reflexivity.
Qed.




End RecordingMore.

(** ** Span attributes and trace continuity *)

Section AttributeFacts.
Import Go Codec Trace Config Lifecycle Recording Options Blank.

(** The value a span holds for a key after a series of [SetAttributes]
    calls: a later value for the same key overwrites an earlier one. *)
Fixpoint attr_get (k : string) (kvs : list KeyValue) : option AttrValue :=
  match kvs with
  | [] => None
  | (k', v) :: rest =>
      match attr_get k rest with
      | Some v' => Some v'
      | None => if String.eqb k' k then Some v else None
      end
  end.


Lemma attr_get_not_in k l :
  ~ In k (map fst l) -> attr_get k l = None.
Proof.
  induction l as [|[k' v] l IH]; simpl; [reflexivity|].
  intros H. rewrite IH by tauto.
  destruct (String.eqb_spec k' k); [tauto | reflexivity].
Qed.





(** *** Trace continuity *)




End AttributeFacts.

(** ** More on the sampler *)

Section SamplerMore.
Import Go Codec Trace Config Sampler Lifecycle Recording.

(** *** Which bits of the identity count *)

Ltac bytes_of_Forall :=
  repeat match goal with
         | H : Forall _ (_ :: _) |- _ => inversion H; clear H; subst
         | H : Forall _ [] |- _ => clear H
         end.

Lemma slice_low (hi lo : list Z) :
  length hi = 8%nat -> length lo = 8%nat -> slice 8 16 (hi ++ lo) = lo.
Proof.
  intros Hh Hl. unfold slice.
  rewrite skipn_app, Hh, Nat.sub_diag, skipn_all2 by lia. simpl.
  apply firstn_all2. lia.
Qed.

Lemma BigEndian_shiftr (lo : list Z) (b : Z) :
  length lo = 7%nat -> Forall is_byte lo -> is_byte b ->
  Z.shiftr (BigEndian_Uint64 (lo ++ [b])) 1
  = b / 2 + 128 * TraceID_value lo.
Proof.
  intros Hlen Hlo Hb.
  do 7 (destruct lo as [|? lo]; [discriminate Hlen|]).
  destruct lo; [|discriminate Hlen]. clear Hlen. bytes_of_Forall.
  simpl app. rewrite BigEndian_Uint64_value by assumption.
  rewrite Z.shiftr_div_pow2 by lia. change (2 ^ 1) with 2.
  unfold TraceID_value. simpl fold_left.
  rewrite <- Z.div_add by lia. f_equal. lia.
Qed.

(** X9: the decision reads bits 1 to 63 of the low half of the identity: the
    high eight bytes and the lowest bit do not matter. *)
Theorem ShouldSample_reads_63_bits
  (s : sampler) (kind : Z) (ts ts' n n' : string)
  (hi hi' lo : list Z) (b b' : Z) :
  length hi = 8%nat -> length hi' = 8%nat -> length lo = 7%nat ->
  Forall is_byte lo -> is_byte b -> is_byte b' ->
  b / 2 = b' / 2 ->
  Decision (ShouldSample s {| sp_ParentTraceState := ts;
                              sp_TraceID := hi ++ lo ++ [b];
                              sp_Name := n; sp_Kind := kind |})
  = Decision (ShouldSample s {| sp_ParentTraceState := ts';
                                sp_TraceID := hi' ++ lo ++ [b'];
                                sp_Name := n'; sp_Kind := kind |}).
Proof.
  intros Hh Hh' Hl Hlo Hb Hb' E.
  rewrite !ShouldSample_decision. cbn [sp_TraceID sp_Kind].
  rewrite !slice_low by (rewrite ?length_app; simpl; lia).
  rewrite !BigEndian_shiftr by assumption. rewrite E. reflexivity.
Qed.

Definition sampler_half : sampler :=
  {| traceIDUpperBounds := {[ SpanKindUnspecified := 2 ^ 62 ]} |}.

Lemma ShouldSample_reads_63_bits_witness :
  Decision (ShouldSample sampler_half
              {| sp_ParentTraceState := ""; sp_Name := "a";
                 sp_TraceID := repeat 1 8 ++ repeat 0 7 ++ [2];
                 sp_Kind := SpanKindServer |})
  = Decision (ShouldSample sampler_half
                {| sp_ParentTraceState := "x=y"; sp_Name := "b";
                   sp_TraceID := repeat 255 8 ++ repeat 0 7 ++ [3];
                   sp_Kind := SpanKindServer |}).
Proof.
  apply (ShouldSample_reads_63_bits sampler_half SpanKindServer
           "" "x=y" "a" "b" (repeat 1 8) (repeat 255 8) (repeat 0 7) 2 3);
    try reflexivity; try (unfold is_byte; lia).
  simpl. repeat (apply List.Forall_cons; [unfold is_byte; lia|]).
  apply List.Forall_nil.
Defined.

(** *** Identities derived from short request identifiers *)






(** *** Rates per kind *)

Lemma rate_WithSamplingRate (r : Q) (c : config) (kind : Z) :
  rate (samplingRateMap (WithSamplingRate r c)) kind = r.
Proof.
  unfold rate, WithSamplingRate, WithSamplingRateMap. cbn [samplingRateMap].
  destruct (decide (kind = SpanKindUnspecified)) as [->|Hk].
  - now rewrite lookup_singleton_eq.
  - rewrite lookup_singleton_ne by congruence.
    now rewrite lookup_singleton_eq.
Qed.

(** X11: [WithSamplingRate] discards whatever rates were configured before and
    gives every span kind the one rate: the decision no longer depends on
    the kind. *)
Theorem WithSamplingRate_is_uniform
  (r : Q) (c : config) (s : sampler) (sp sp' : SamplingParameters) :
  getSampler (WithSamplingRate r c) = Some s ->
  sp_TraceID sp' = sp_TraceID sp ->
  rate (samplingRateMap (WithSamplingRate r c)) (sp_Kind sp) = r /\
  effective_bound s (sp_Kind sp) = Qtruncate (r * two63) /\
  Decision (ShouldSample s sp') = Decision (ShouldSample s sp).
Proof.
  intros Hs Et.
  split; [apply rate_WithSamplingRate|].
  assert (Hb : forall kind, effective_bound s kind = Qtruncate (r * two63)).
  { intros kind. rewrite (getSampler_bound _ s kind Hs).
    now rewrite rate_WithSamplingRate. }
  split; [apply Hb|].
  rewrite !ShouldSample_decision, !Hb, Et. reflexivity.
Qed.

Lemma WithSamplingRate_is_uniform_witness :
  exists s,
    getSampler (WithSamplingRate (1 # 2) conf_half) = Some s /\
    Decision (ShouldSample s {| sp_ParentTraceState := ""; sp_Name := "";
                                sp_TraceID := repeat 0 16;
                                sp_Kind := SpanKindServer |})
    = Decision (ShouldSample s (sp_client (repeat 0 16))).
Proof.
  destruct (getSampler (WithSamplingRate (1 # 2) conf_half)) as [s|] eqn:E;
    [|discriminate E].
  exists s. split; [reflexivity|].
  exact (proj2 (proj2 (WithSamplingRate_is_uniform (1 # 2) conf_half s
                         (sp_client (repeat 0 16))
                         {| sp_ParentTraceState := ""; sp_Name := "";
                            sp_TraceID := repeat 0 16;
                            sp_Kind := SpanKindServer |} E eq_refl))).
Defined.

(** X12: a kind that has no entry in the rate map, when the map has no entry for
    the unspecified kind either, is never sampled. *)
Theorem unlisted_kind_is_dropped
  (conf : config) (s : sampler) (sp : SamplingParameters) :
  getSampler conf = Some s ->
  samplingRateMap conf !! sp_Kind sp = None ->
  samplingRateMap conf !! SpanKindUnspecified = None ->
  length (sp_TraceID sp) = 16%nat ->
  Forall is_byte (sp_TraceID sp) ->
  Decision (ShouldSample s sp) = Drop.
Proof.
  intros Hs Hk H0 Hlen Hb.
  rewrite ShouldSample_decision, (getSampler_bound _ s _ Hs).
  unfold rate. rewrite Hk, H0. cbn [default].
  destruct (low63_BigEndian _ Hlen Hb) as [-> R].
  apply decision_cases.
  replace (Qtruncate (0 * two63)) with 0 by (vm_compute; reflexivity).
  lia.
Qed.

Lemma unlisted_kind_is_dropped_witness :
  exists s,
    getSampler conf_half = Some s /\
    Decision (ShouldSample s {| sp_ParentTraceState := ""; sp_Name := "";
                                sp_TraceID := repeat 0 16;
                                sp_Kind := SpanKindServer |}) = Drop.
Proof.
  destruct (getSampler conf_half) as [s|] eqn:E; [|discriminate E].
  exists s. split; [reflexivity|].
  apply (unlisted_kind_is_dropped conf_half s _ E); try reflexivity.
  simpl. repeat (apply List.Forall_cons; [unfold is_byte; lia|]).
  apply List.Forall_nil.
Defined.

End SamplerMore.

(** ** More on the lifecycle *)

Section LifecycleMore.
Import Go Config Lifecycle Options.

(** *** Every pipeline is flushed at most once *)

Definition flush_id (e : Event) : option nat :=
  match e with ForceFlush id => Some id | _ => None end.

Definition release_id (e : Event) : option nat :=
  match e with ProviderShutdown id => Some id | _ => None end.

Definition built_id (e : Event) : option nat :=
  match e with NewTracerProvider id => Some id | _ => None end.

(** The pipelines flushed, released and built, in the order of the log. *)
Definition flushed (l : list Event) : list nat := omap flush_id l.
Definition released (l : list Event) : list nat := omap release_id l.
Definition built (l : list Event) : list nat := omap built_id l.

(** What every reachable state satisfies. *)
Record lifecycle_inv (w : World) : Prop := {
  inv_built : built (log w) = seq 0 (providers w);
  inv_released : released (log w) = flushed (log w);
  inv_nodup : NoDup (flushed (log w));
  inv_flushed : Forall (fun id => (id < providers w)%nat) (flushed (log w));
  inv_current : state w = started -> forall o, otlp w = Some o ->
                (tracerProvider o < providers w)%nat /\
                tracerProvider o ∉ flushed (log w);
  inv_interrupt : (length (interruptChan w) <= chan_cap)%nat;
  inv_signal : (length (signalChan w) <= chan_cap)%nat
}.

Lemma lifecycle_inv_init : lifecycle_inv World_init.
Proof.
  split; simpl; try reflexivity; try lia.
  - constructor.
  - constructor.
  - discriminate.
Qed.

Lemma logged_no_ids e :
  flushed (logged e) = [] /\ released (logged e) = [] /\ built (logged e) = [].
Proof. destruct e; repeat split. Qed.

Lemma shutdown_inv env w : lifecycle_inv w -> lifecycle_inv (shutdown env w).
Proof.
  intros [Hb Hr Hn Hf Hc Hi Hs]. unfold shutdown, IsRunning.
  destruct (decide (state w = started)) as [Hst|Hst].
  2:{ rewrite bool_decide_eq_false_2 by assumption. simpl.
      split; assumption. }
  rewrite bool_decide_eq_true_2 by assumption. simpl.
  destruct (otlp w) as [o|] eqn:Ho.
  2:{ split; simpl; try assumption. discriminate. }
  destruct (Hc Hst o eq_refl) as [Hlt Hnin].
  destruct (OTLP_shutdown_frame o env w) as (_ & _ & _ & Ei & Es & _ & _ & Ep).
  simpl in Ei, Es, Ep.
  destruct (logged_no_ids (flush_err env)) as (F1 & R1 & B1).
  destruct (logged_no_ids (release_err env)) as (F2 & R2 & B2).
  split; simpl; rewrite ?Ei, ?Es, ?Ep, ?OTLP_shutdown_log;
    unfold flushed, released, built in *; rewrite ?omap_app;
    try assumption; try discriminate.
  - rewrite B1, B2, Hb. simpl. rewrite ?app_nil_r. reflexivity.
  - rewrite F1, F2, R1, R2, Hr. simpl. rewrite ?app_nil_r. reflexivity.
  - rewrite F1, F2. simpl. rewrite ?app_nil_r.
    apply NoDup_app. split; [assumption|]. split.
    + intros x Hx Hx'. apply list_elem_of_singleton in Hx'. subst x.
      contradiction.
    + apply NoDup_singleton.
  - rewrite F1, F2. simpl. rewrite ?app_nil_r.
    apply Forall_app. split; [assumption|]. repeat constructor. assumption.
Qed.

Lemma StartWithContext_inv ctx opts env w :
  lifecycle_inv w -> lifecycle_inv (StartWithContext ctx opts env w).
Proof.
  intros [Hb Hr Hn Hf Hc Hi Hs]. unfold StartWithContext. simpl.
  destruct (decide (state w = started)) as [Hst|Hst].
  { rewrite bool_decide_eq_true_2 by assumption. split; assumption. }
  rewrite bool_decide_eq_false_2 by assumption.
  unfold StartOTLP. simpl.
  destruct (String.prefix "http://" (otelEndpoint (apply_opts opts (conf w))));
    [|destruct (String.prefix "https://"
                  (otelEndpoint (apply_opts opts (conf w))))];
    destruct (exporter_err env), (resource_err env); simpl;
    (split; simpl; unfold flushed, released, built in *;
     rewrite ?omap_app; simpl; rewrite ?app_nil_r;
     try assumption; try discriminate;
     try (rewrite Hb;
          change (0%nat :: seq 1 (providers w)) with (seq 0 (S (providers w)));
          rewrite seq_S; reflexivity);
     try (eapply Forall_impl; [exact Hf | simpl; intros; lia]);
     try (intros _ o [= <-]; simpl; split; [lia|];
          intros Hin; eapply Forall_forall in Hf; [|exact Hin]; lia)).
Qed.

Lemma step_inv op w w' :
  lifecycle_inv w -> step op w = Some w' -> lifecycle_inv w'.
Proof.
  intros Hinv Hstep. destruct op; simpl in Hstep.
  - injection Hstep as <-. now apply StartWithContext_inv.
  - destruct (Nat.ltb_spec (length (interruptChan w)) chan_cap);
      [|discriminate]. injection Hstep as <-.
    destruct Hinv. split; simpl; try assumption.
    rewrite length_app. simpl. unfold chan_cap in *. lia.
  - injection Hstep as <-. now apply shutdown_inv.
  - destruct (Nat.ltb_spec (length (signalChan w)) chan_cap);
      injection Hstep as <-; [|assumption].
    destruct Hinv. split; simpl; try assumption.
    rewrite length_app. simpl. unfold chan_cap in *. lia.
  - injection Hstep as <-. destruct Hinv. split; assumption.
  - destruct (supervisors w !! i); [|discriminate].
    destruct (interruptChan w) as [|x rest] eqn:E; [discriminate|].
    injection Hstep as <-. destruct Hinv. split; simpl; try assumption.
    rewrite E in *. simpl in *. lia.
  - destruct (supervisors w !! i); [|discriminate].
    destruct (signalChan w) as [|x rest] eqn:E; [discriminate|].
    injection Hstep as <-. apply shutdown_inv.
    destruct Hinv. split; simpl; try assumption.
    rewrite E in *. simpl in *. lia.
  - destruct (supervisors w !! i) as [c|]; [|discriminate].
    destruct (is_done w c); [|discriminate].
    injection Hstep as <-. apply shutdown_inv.
    destruct Hinv. split; assumption.
Qed.

Lemma run_inv ops : forall w w',
  lifecycle_inv w -> run ops w = Some w' -> lifecycle_inv w'.
Proof.
  induction ops as [|op ops IH]; simpl; intros w w' Hinv Hrun.
  - injection Hrun as <-. assumption.
  - destruct (step op w) as [w1|] eqn:E; [|discriminate].
    apply (IH w1); [|assumption]. exact (step_inv _ _ _ Hinv E).
Qed.

(** X13: in every execution from the initial state, whatever the order of
    starts, stops, signals, cancellations and supervisor steps: no pipeline
    is flushed twice, every flush is followed by the release of the same
    pipeline, only pipelines that were built are flushed, and neither
    channel ever holds more than one message. *)
Theorem each_pipeline_flushed_once (ops : list Op) (w : World) :
  run ops World_init = Some w ->
  NoDup (flushed (log w)) /\
  released (log w) = flushed (log w) /\
  (forall id, In id (flushed (log w)) -> In id (built (log w))) /\
  (length (flushed (log w)) <= length (built (log w)))%nat /\
  (length (interruptChan w) <= 1)%nat /\
  (length (signalChan w) <= 1)%nat.
Proof.
  intros Hrun.
  destruct (run_inv ops _ _ lifecycle_inv_init Hrun)
    as [Hb Hr Hn Hf _ Hi Hs].
  assert (Hin : forall id, In id (flushed (log w)) -> In id (built (log w))).
  { intros id Hid. rewrite Hb. apply in_seq.
    apply List.Forall_forall with (x := id) in Hf; [lia | assumption]. }
  split; [exact Hn|]. split; [exact Hr|]. split; [exact Hin|].
  split; [apply NoDup_incl_length; [apply NoDup_ListNoDup; exact Hn | exact Hin]|].
  unfold chan_cap in *. split; assumption.
Qed.

Definition failing_flush : ShutdownEnv :=
  {| flush_err := Some (errors_New "timeout"); release_err := None |}.

Lemma each_pipeline_flushed_once_witness :
  exists w,
    run (CallStart Background [] start_ok :: Stop failing_flush
         ++ [SignalArrives; SupervisorSignal 0 no_failure;
             CallStart (Cancellable 1) [] start_ok; CancelCtx 1;
             SupervisorDone 0 no_failure; StopShutdown no_failure])
      World_init = Some w /\
    flushed (log w) = [0; 1]%nat /\ released (log w) = [0; 1]%nat.
Proof.
  destruct (run (CallStart Background [] start_ok :: Stop failing_flush
                 ++ [SignalArrives; SupervisorSignal 0 no_failure;
                     CallStart (Cancellable 1) [] start_ok; CancelCtx 1;
                     SupervisorDone 0 no_failure; StopShutdown no_failure])
              World_init) as [w|] eqn:E; [|vm_compute in E; discriminate E].
  exists w. split; [reflexivity|].
  destruct (each_pipeline_flushed_once _ _ E) as (_ & Hr & _).
  assert (Hf : flushed (log w) = [0; 1]%nat)
    by (vm_compute in E; injection E as <-; reflexivity).
  split; [exact Hf|]. rewrite Hr. exact Hf.
Defined.

(** *** A start whose pipeline cannot be built *)

Lemma StartWithContext_conf ctx opts env w :
  conf (StartWithContext ctx opts env w) = apply_opts opts (conf w).
Proof.
  unfold StartWithContext. simpl.
  destruct (bool_decide (state w = started)); [reflexivity|].
  unfold StartOTLP. simpl.
  destruct (String.prefix "http://" (otelEndpoint (apply_opts opts (conf w))));
    [|destruct (String.prefix "https://"
                  (otelEndpoint (apply_opts opts (conf w))))];
    destruct (exporter_err env), (resource_err env); reflexivity.
Qed.

(** X14: when the exporter or the resource cannot be constructed, the failure is
    logged and the state is [started] all the same, with no pipeline:
    [IsRunning] answers true, and the shutdown that follows flushes nothing
    and sets the state to [stopped]. *)
Theorem failed_start_is_started
  (ctx : DoneCtx) (opts : list Option) (env : StartEnv) (w : World) :
  state w <> started ->
  exporter_err env <> None \/ resource_err env <> None ->
  let w' := StartWithContext ctx opts env w in
  IsRunning w' = true /\
  otlp w' = None /\
  (exists cause,
     (cause = "creating OTLP trace exporter"
      \/ cause = "creating OTLP resource context") /\
     exists msg before,
       log w'
       = before ++
         [LoggerError ("failed to start opentelemetry exporter: "
                       ++ cause ++ ": " ++ msg)%string;
          GoSupervisor ctx]) /\
  (forall senv,
     state (shutdown senv w') = stopped /\ log (shutdown senv w') = log w').
Proof.
  intros Hst Herr.
  pose proof (StartWithContext_fresh ctx opts env w Hst) as Hf.
  cbv zeta in *. destruct Hf as (Hs & _ & _ & Ho).
  assert (Hn : otlp (StartWithContext ctx opts env w) = None).
  { destruct (exporter_err env), (resource_err env);
      try (destruct Ho as [Ho _]; exact Ho).
    destruct Herr as [H|H]; contradiction. }
  split; [unfold IsRunning; now rewrite bool_decide_eq_true_2|].
  split; [exact Hn|]. split.
  - unfold StartWithContext. simpl.
    rewrite bool_decide_eq_false_2 by assumption.
    unfold StartOTLP. simpl.
    destruct (String.prefix "http://" (otelEndpoint (apply_opts opts (conf w))));
      [|destruct (String.prefix "https://"
                    (otelEndpoint (apply_opts opts (conf w))))];
      destruct (exporter_err env) as [e1|], (resource_err env) as [e2|];
      try (destruct Herr as [H|H]; contradiction);
      simpl;
      first [ eexists; split; [left; reflexivity|];
              eexists _, _; rewrite <- app_assoc; reflexivity
            | eexists; split; [right; reflexivity|];
              eexists _, _; rewrite <- app_assoc; reflexivity ].
  - intros senv. unfold shutdown, IsRunning.
    rewrite bool_decide_eq_true_2 by assumption. simpl. rewrite Hn.
    split; reflexivity.
Qed.

Definition exporter_fails : StartEnv :=
  {| exporter_err := Some (errors_New "no route"); resource_err := None |}.

Lemma failed_start_is_started_witness :
  IsRunning (Init [] exporter_fails World_init) = true /\
  otlp (Init [] exporter_fails World_init) = None /\
  log (shutdown no_failure (Init [] exporter_fails World_init))
  = [LoggerError "failed to start opentelemetry exporter: creating OTLP trace exporter: no route";
     GoSupervisor Background].
Proof.
  destruct (failed_start_is_started Background [] exporter_fails World_init)
    as (H1 & H2 & _ & H3); [discriminate | left; discriminate |].
  split; [exact H1|]. split; [exact H2|].
  unfold Init. rewrite (proj2 (H3 no_failure)). reflexivity.
Defined.

(** *** An endpoint with an unknown scheme *)

(** X15: an endpoint that starts with neither [http://] nor [https://] is
    reported to the logger and nothing more: the pipeline is built and the
    state becomes [started] as for a valid endpoint. *)
Theorem invalid_endpoint_is_only_logged
  (ctx : DoneCtx) (opts : list Option) (w : World) (endpoint : string) :
  state w <> started ->
  otelEndpoint (apply_opts opts (conf w)) = endpoint ->
  String.prefix "http://" endpoint = false ->
  String.prefix "https://" endpoint = false ->
  let w' := StartWithContext ctx opts start_ok w in
  state w' = started /\
  otlp w' = Some {| tracerProvider := providers w |} /\
  log w' = log w ++
           [LoggerError ("an invalid otlp endpoint was configured "
                         ++ endpoint)%string;
            NewTracerProvider (providers w);
            GoSupervisor ctx].
Proof.
  intros Hst He H1 H2. unfold StartWithContext. simpl.
  rewrite bool_decide_eq_false_2 by assumption.
  unfold StartOTLP. simpl. rewrite He, H1, H2. simpl.
  repeat split. rewrite <- !app_assoc. reflexivity.
Qed.

Lemma invalid_endpoint_is_only_logged_witness :
  log (Start [] start_ok (SetOtelEndpoint "localhost:4318" World_init))
  = [LoggerError "an invalid otlp endpoint was configured localhost:4318";
     NewTracerProvider 0; GoSupervisor Background].
Proof.
  exact (proj2 (proj2 (invalid_endpoint_is_only_logged Background []
                         (SetOtelEndpoint "localhost:4318" World_init)
                         "localhost:4318" ltac:(discriminate)
                         eq_refl eq_refl eq_refl))).
Defined.

End LifecycleMore.

(** ** Reconfiguration while running *)

Section ReconfigurationFacts.
Import Go Codec Trace Config Lifecycle Recording Options.




End ReconfigurationFacts.

(** ** Metrics *)

Section MetricFacts.
Import Go Trace Config Lifecycle Recording Options Metric.

Lemma shouldRecordMetric_iff rnd rate w :
  shouldRecordMetric rnd rate w = true <->
  (rnd <= rate)%Q /\ (rnd <= GetMetricSamplingRate w)%Q.
Proof.
  unfold shouldRecordMetric, math_Min.
  destruct (Qle_bool rate (GetMetricSamplingRate w)) eqn:E;
    rewrite Qle_bool_iff.
  - apply Qle_bool_iff in E. split.
    + intros H. split; [assumption|]. eapply Qle_trans; eassumption.
    + tauto.
  - assert (Hlt : (GetMetricSamplingRate w < rate)%Q).
    { apply Qnot_le_lt. intros H. apply Qle_bool_iff in H. congruence. }
    split.
    + intros H. split; [|assumption].
      apply Qlt_le_weak. eapply Qle_lt_trans; eassumption.
    + tauto.
Qed.

Lemma metric_declined rnd fresh ctx name value tags rate now w :
  (rate < rnd)%Q \/ (GetMetricSamplingRate w < rnd)%Q ->
  Histogram rnd fresh ctx name value tags rate now w = Ok w /\
  Increment rnd fresh ctx name tags rate now w = Ok w.
Proof.
  intros H. unfold Histogram, Increment.
  assert (E : shouldRecordMetric rnd rate w = false).
  { destruct (shouldRecordMetric rnd rate w) eqn:E; [|reflexivity].
    apply shouldRecordMetric_iff in E as [E1 E2].
    destruct H as [H|H]; apply Qlt_not_le in H; contradiction. }
  rewrite E. split; reflexivity.
Qed.

(** X17: [Histogram] and [Increment] record exactly when the random draw is at
    most the rate of the call and at most the configured metric sampling
    rate, which therefore caps every call's rate; otherwise they return
    without touching anything.  [Increment] records the value 1. *)
Theorem metric_guard
  (rnd : Q) (fresh : TraceID) (ctx : Context) (name : string) (value : Q)
  (tags : list KeyValue) (rate : Q) (now : Z) (w : World) :
  ((rnd <= rate)%Q /\ (rnd <= GetMetricSamplingRate w)%Q ->
   Histogram rnd fresh ctx name value tags rate now w
   = RecordMetric fresh ctx name value now tags w /\
   Increment rnd fresh ctx name tags rate now w
   = RecordMetric fresh ctx name 1 now tags w) /\
  ((rate < rnd)%Q \/ (GetMetricSamplingRate w < rnd)%Q ->
   Histogram rnd fresh ctx name value tags rate now w = Ok w /\
   Increment rnd fresh ctx name tags rate now w = Ok w).
Proof.
  split; [|apply metric_declined].
  unfold Histogram, Increment.
  intros H. apply shouldRecordMetric_iff in H. rewrite H. split; reflexivity.
Qed.

(** X18: the package's [init] leaves the metric sampling rate at zero, so unless
    [WithMetricSamplingRate] is passed no metric is recorded for any draw
    above zero, whatever rate the call asks for. *)
Theorem metrics_need_a_sampling_rate
  (opts : list Option) (env : StartEnv)
  (rnd : Q) (fresh : TraceID) (ctx : Context) (name : string) (value : Q)
  (tags : list KeyValue) (rate : Q) (now : Z) :
  (metricSamplingRate (apply_opts opts conf_init) == 0)%Q ->
  (0 < rnd)%Q ->
  let w := Init opts env World_init in
  Histogram rnd fresh ctx name value tags rate now w = Ok w /\
  Increment rnd fresh ctx name tags rate now w = Ok w.
Proof.
  intros Hm Hr. cbv zeta. apply metric_declined.
  right. unfold GetMetricSamplingRate, Init.
  rewrite StartWithContext_conf. simpl. rewrite Hm. exact Hr.
Qed.

Lemma metrics_need_a_sampling_rate_witness :
  let w := Init [WithProjectID "p"] start_ok World_init in
  Histogram (1 # 2) fresh_id ctx_test "logins.successful" 1 [] 1 0 w = Ok w.
Proof.
  exact (proj1 (metrics_need_a_sampling_rate [WithProjectID "p"] start_ok
                  (1 # 2) fresh_id ctx_test "logins.successful" 1 [] 1 0
                  ltac:(reflexivity) ltac:(reflexivity))).
Defined.

End MetricFacts.

(** ** Middleware *)

Section MiddlewareFacts.
Import Go Codec Trace Config Lifecycle Recording Correlation Options Middleware.

(** *** The client address *)

Lemma sep_free_app a rest sep :
  sep_free sep (a ++ String sep rest)%string = false.
Proof.
  induction a as [|c a IH]; simpl.
  - now rewrite Ascii.eqb_refl.
  - rewrite IH. apply andb_false_r.
Qed.

Lemma eqb_empty (s : string) : s <> "" -> String.eqb s "" = false.
Proof. intros H. now apply String.eqb_neq. Qed.

(** X19: [GetIPAddress] takes the first non-empty of [X-Real-Ip], [X-Client-IP]
    and [X-Forwarded-For], of the latter only what precedes its first comma,
    and falls back to the remote address, also when the forwarded list
    starts with a comma.  It is empty only if the remote address is. *)
Theorem GetIPAddress_priority (r : Request) :
  let real := req_Header r "X-Real-Ip" in
  let client := req_Header r "X-Client-IP" in
  let forwarded := req_Header r "X-Forwarded-For" in
  (real <> "" -> GetIPAddress r = real) /\
  (real = "" -> client <> "" -> GetIPAddress r = client) /\
  (real = "" -> client = "" ->
   forall a rest, forwarded = (a ++ String "," rest)%string ->
                  sep_free "," a = true -> a <> "" ->
                  GetIPAddress r = a) /\
  (real = "" -> client = "" -> forwarded <> "" ->
   sep_free "," forwarded = true -> GetIPAddress r = forwarded) /\
  (real = "" -> client = "" ->
   forwarded = "" \/ (exists rest, forwarded = String "," rest) ->
   GetIPAddress r = req_RemoteAddr r) /\
  (GetIPAddress r = "" -> req_RemoteAddr r = "").
Proof.
  cbv zeta. unfold GetIPAddress, Contains.
  destruct (String.eqb_spec (req_Header r "X-Real-Ip") "") as [E1|N1].
  2:{ do 3 (rewrite ?(eqb_empty _ N1); cbv iota).
      repeat split; intros; congruence. }
  destruct (String.eqb_spec (req_Header r "X-Client-IP") "") as [E2|N2].
  2:{ do 3 (rewrite ?(eqb_empty _ N2); cbv iota).
      repeat split; intros; congruence. }
  split; [intros; contradiction|]. split; [intros; contradiction|].
  split; [|split; [|split]].
  - intros _ _ a rest Ef Ha Hne. rewrite Ef.
    destruct (String.eqb_spec (a ++ String "," rest)%string "") as [E|_].
    { destruct a; discriminate E. }
    cbn [negb andb]. rewrite sep_free_app. cbn [negb].
    rewrite (Split_app _ _ _ Ha). cbn [length Nat.ltb Nat.leb nth].
    now rewrite (eqb_empty _ Hne).
  - intros _ _ Hne Hfree. rewrite (eqb_empty _ Hne), Hfree. cbn [negb andb].
    now rewrite (eqb_empty _ Hne).
  - intros _ _ [Ef | [rest Ef]]; rewrite Ef; reflexivity.
  - destruct (String.eqb_spec (req_Header r "X-Forwarded-For") "") as [E3|N3];
      cbn [negb andb].
    + rewrite E3. simpl. tauto.
    + destruct (sep_free "," (req_Header r "X-Forwarded-For")) eqn:Ef;
        cbn [negb].
      * rewrite (eqb_empty _ N3). intros; contradiction.
      * pose proof (Split_nonempty (req_Header r "X-Forwarded-For") ",") as Hs.
        destruct (Split (req_Header r "X-Forwarded-For") ",") as [|a l];
          [contradiction|].
        cbn [length Nat.ltb Nat.leb nth].
        destruct (String.eqb_spec a ""); [tauto | intros; contradiction].
Qed.

(** *** The two ways of reading the correlation header *)

(** X20: the echo handler, which parses the header with [ExtractIdsFromRequest],
    and [InterceptRequest], which splits it itself, attach the same values
    to the context for every header value; with fewer than two segments
    both leave the context as it is. *)
Theorem echo_context_is_InterceptRequest (r : Request) :
  echo_context r = InterceptRequest r /\
  (sep_free "/" (req_Header r RequestTracerHeader) = true ->
   echo_context r = req_Context r).
Proof.
  unfold echo_context, InterceptRequest, InterceptRequestWithContext,
    ExtractIdsFromRequest.
  change RequestTracerHeader with "X-Scout-Request".
  set (ids := Split (req_Header r "X-Scout-Request") "/").
  split.
  - destruct (Nat.leb_spec 2 (length ids)) as [H|H].
    + apply Nat.ltb_ge in H. rewrite H. reflexivity.
    + apply Nat.ltb_lt in H. rewrite H. reflexivity.
  - intros Hf. apply Split_short in Hf. fold ids in Hf.
    apply Nat.leb_gt in Hf. rewrite Hf. reflexivity.
Qed.

(** *** The gin handler needs the header *)




(** For a request without the header the chi handler still starts a span. *)
Lemma chi_without_header next attrs fresh now r w sid rid e :
  sep_free "/" (req_Header r "X-Scout-Request") = true ->
  validateRequest w (req_Context r) = Ok (sid, rid, e) ->
  exists span w',
    chi_Middleware next attrs fresh now r w = Ok (span, w') /\
    span_Name span = "scout.chi".
Proof.
  intros Hf Hv. unfold chi_Middleware, http_Middleware, InterceptRequest,
    InterceptRequestWithContext.
  apply Split_short in Hf. apply Nat.ltb_lt in Hf. rewrite Hf.
  unfold StartTrace.
  rewrite (StartTraceWithTimestamp_Ok _ _ _ _ _ _ _ _ _ _ Hv). cbn [bind].
  eexists _, _. split; reflexivity.
Qed.

End MiddlewareFacts.
